(** * people_detection: the batch video-annotation script [src/model/model.py]

    A shallow embedding of [get_cap_info], [process_video] and [main].
    The script is a straight-line loop over external collaborators (the
    OpenCV capture and writer objects, the drawing primitives, the
    detector); the embedding keeps the control flow of the script and
    models the collaborators by the observable state they leave behind:

    - the file system is a finite map from paths to files;
    - every [cv2.VideoCapture] and [cv2.VideoWriter] object lives in a
      handle table of the world, with its [isOpened] flag;
    - a frame is the decoded raster together with the list of drawing
      calls applied to it, so that "which calls were made, with which
      arguments" is observable and "no call was made" means the frame is
      unchanged;
    - Python exceptions are an outcome of the state-and-error monad.

    The collaborators are taken at their contract: a capture decodes the
    frames of its file when it is constructed and hands them out one per
    [read]; a writer creates its file when it is constructed and appends
    one frame per [write]; the detector is a function of the frame.
    Numbers coming out of tensors and of [cap.get] are finite floats; each
    finite float is a rational, so they are embedded as [Q].  File names are
    ASCII strings, paths are POSIX paths.  Box coordinates are in the range
    of a C [int], which the drawing primitives accept. *)

From Stdlib Require Import ZArith QArith Qabs Ascii String List Lia.
From stdpp Require Import base tactics option list strings pretty gmap fin_maps.

Local Open Scope string_scope.
Local Open Scope Z_scope.

(** ** Python built-ins used by the script *)

Module Py.

(** [int(x)] on a finite float: truncation toward zero. *)
Definition int (x : Q) : Z := Z.quot (Qnum x) (Z.pos (Qden x)).

(** [max(a, b)] on integers. *)
Definition max (a b : Z) : Z := if Z.ltb a b then b else a.

(** [str(n)] on an integer. *)
Definition str (n : Z) : string := pretty n.

(** Rounding of a non-negative fraction [a / b] to the nearest integer,
    ties to even: the rounding of [format(x, '.2f')], which converts the
    exact binary value. *)
Definition round_half_even (a : Z) (b : positive) : Z :=
  let d := a / Z.pos b in
  let r := a mod Z.pos b in
  if 2 * r <? Z.pos b then d
  else if Z.pos b <? 2 * r then d + 1
  else if Z.even d then d else d + 1.

Definition two_digits (n : Z) : string :=
  if n <? 10 then "0" +:+ str n else str n.

(** [f"{x:.2f}"] on a finite float. *)
Definition format_2f (x : Q) : string :=
  let n := round_half_even (Z.abs (Qnum x) * 100) (Qden x) in
  (if Qnum x <? 0 then "-" else "")
    +:+ str (n / 100) +:+ "." +:+ two_digits (n mod 100).

(** [s.lower()], on ASCII. *)
Definition lower_char (c : ascii) : ascii :=
  let n := nat_of_ascii c in
  if (Nat.leb 65 n && Nat.leb n 90)%bool then ascii_of_nat (n + 32) else c.

Fixpoint lower (s : string) : string :=
  match s with
  | EmptyString => EmptyString
  | String c s' => String (lower_char c) (lower s')
  end.

(** [s.startswith(p)] and [s.endswith(p)]. *)
Definition startswith (s p : string) : bool := String.prefix p s.

Definition endswith (s p : string) : bool :=
  String.prefix (String.rev p) (String.rev s).

(** [s.endswith((p1, ..., pn))]: a tuple of suffixes. *)
Definition endswith_any (s : string) (ps : list string) : bool :=
  existsb (endswith s) ps.

(** [s.rfind(c)] for a single character: the highest index, or [-1]. *)
Fixpoint rfind_from (c : ascii) (s : string) (i : Z) (last : Z) : Z :=
  match s with
  | EmptyString => last
  | String d s' =>
      rfind_from c s' (i + 1) (if Ascii.eqb d c then i else last)
  end.

Definition rfind (s : string) (c : ascii) : Z := rfind_from c s 0 (-1).

(** Slices [s[:i]] and [s[i:]] for [0 <= i]. *)
Definition slice_to (s : string) (i : Z) : string :=
  String.substring 0 (Z.to_nat i) s.

Definition slice_from (s : string) (i : Z) : string :=
  String.substring (Z.to_nat i) (String.length s - Z.to_nat i) s.

End Py.

(** ** [os.path] (POSIX flavour) *)

Module OsPath.

(** [posixpath.join(a, b)]. *)
Definition join (a b : string) : string :=
  if Py.startswith b "/" then b
  else if (String.eqb a "" || Py.endswith a "/")%bool then a +:+ b
  else a +:+ "/" +:+ b.

(** The loop of [genericpath._splitext] that skips the leading dots of
    the file name: is there a character other than ['.'] at an index in
    [filenameIndex, filenameIndex + n)? *)
Fixpoint has_non_dot (p : string) (filenameIndex : Z) (n : nat) : bool :=
  match n with
  | O => false
  | S n' =>
      match String.get (Z.to_nat filenameIndex) p with
      | Some c =>
          if Ascii.eqb c "."%char
          then has_non_dot p (filenameIndex + 1) n'
          else true
      | None => true
      end
  end.

(** [os.path.splitext(p)]: the pair (root, ext). *)
Definition splitext (p : string) : string * string :=
  let sepIndex := Py.rfind p "/"%char in
  let dotIndex := Py.rfind p "."%char in
  if (sepIndex <? dotIndex)
     && has_non_dot p (sepIndex + 1) (Z.to_nat (dotIndex - (sepIndex + 1)))
  then (Py.slice_to p dotIndex, Py.slice_from p dotIndex)
  else (p, "").

End OsPath.

(** ** Outcomes and the state-and-error monad

    A Python call either returns a value or raises; the script never
    catches.  [OutOfFuel] is the third outcome of the bounded unrolling of
    [while True]; [process_video_not_out_of_fuel] shows [process_video] never
    produces it. *)

Inductive exn : Type :=
| KeyError (key : Z).

Inductive outcome (A : Type) : Type :=
| Ok (a : A)
| Raise (e : exn)
| OutOfFuel.

Arguments Ok {A} a.
Arguments Raise {A} e.
Arguments OutOfFuel {A}.

Definition ST (S A : Type) : Type := S -> outcome A * S.

#[global] Instance ST_ret {S} : MRet (ST S) := fun A a s => (Ok a, s).

#[global] Instance ST_bind {S} : MBind (ST S) := fun A B f m s =>
  match m s with
  | (Ok a, s') => f a s'
  | (Raise e, s') => (Raise e, s')
  | (OutOfFuel, s') => (OutOfFuel, s')
  end.

Definition raise {S A} (e : exn) : ST S A := fun s => (Raise e, s).

Definition out_of_fuel {S A} : ST S A := fun s => (OutOfFuel, s).

(** [for x in xs: body(x)]. *)
Fixpoint for_each {S A} (xs : list A) (body : A -> ST S unit) : ST S unit :=
  match xs with
  | [] => mret tt
  | x :: xs' => body x ;; for_each xs' body
  end.

(** [d[k]] on a dict: the value, or [KeyError(k)]. *)
Definition getitem {S} (d : gmap Z string) (k : Z) : ST S string :=
  match d !! k with
  | Some v => mret v
  | None => raise (KeyError k)
  end.

(** [zip(a, b, c)]: stops at the shortest. *)
Fixpoint zip3 {A B C} (a : list A) (b : list B) (c : list C) : list (A * B * C) :=
  match a, b, c with
  | x :: a', y :: b', z :: c' => (x, y, z) :: zip3 a' b' c'
  | _, _, _ => []
  end.

(** ** Frames and the drawing primitives *)

Definition Point : Type := Z * Z.
Definition Color : Type := Z * Z * Z.

Inductive Font : Type :=
| FONT_HERSHEY_SIMPLEX.

(** One call of a drawing primitive, with its arguments. *)
Inductive DrawCall : Type :=
| Rectangle (pt1 pt2 : Point) (color : Color) (thickness : Z)
| PutText (text : string) (org : Point) (fontFace : Font) (fontScale : Q)
    (color : Color) (thickness : Z).

(** A frame: the pixels as decoded, and the drawing calls applied to them
    since, oldest first.  Two frames are pixel-identical when they agree on
    both. *)
Record Frame : Type := mkFrame {
  raster : list Z;
  drawn : list DrawCall
}.

Definition draw (c : DrawCall) : ST Frame unit :=
  fun f => (Ok tt, mkFrame (raster f) (drawn f ++ [c])%list).

Module Cv2.

(** [cv2.rectangle(frame, pt1, pt2, color, thickness)], in place. *)
Definition rectangle (pt1 pt2 : Point) (color : Color) (thickness : Z) : ST Frame unit :=
  draw (Rectangle pt1 pt2 color thickness).

(** [cv2.putText(frame, text, org, fontFace, fontScale, color, thickness)]. *)
Definition putText (text : string) (org : Point) (fontFace : Font) (fontScale : Q)
    (color : Color) (thickness : Z) : ST Frame unit :=
  draw (PutText text org fontFace fontScale color thickness).

(** [cv2.VideoWriter_fourcc(c1, c2, c3, c4)]. *)
Definition VideoWriter_fourcc (c1 c2 c3 c4 : ascii) : Z :=
  Z.lor (Z.lor (Z.of_nat (nat_of_ascii c1)) (Z.shiftl (Z.of_nat (nat_of_ascii c2)) 8))
        (Z.lor (Z.shiftl (Z.of_nat (nat_of_ascii c3)) 16)
               (Z.shiftl (Z.of_nat (nat_of_ascii c4)) 24)).

End Cv2.

(** ** The detector

    [model.predict(frame, verbose=False)[0].boxes]: three parallel
    sequences; [xyxy] may be [None]. *)

Definition Box : Type := Q * Q * Q * Q.

Record Boxes : Type := mkBoxes {
  xyxy : option (list Box);
  conf : list Q;
  cls : list Q
}.

Definition Detector : Type := Frame -> Boxes.

(** ** The world: files, console, capture and writer objects *)

Record Video : Type := mkVideo {
  fps : Q;
  frame_width : Q;
  frame_height : Q;
  frame_count : Q;
  frames : list Frame
}.

Inductive File : Type :=
| Playable (v : Video)
| Unplayable.

Record Capture : Type := mkCapture {
  c_path : string;
  c_isOpened : bool;
  c_fps : Q;
  c_frame_width : Q;
  c_frame_height : Q;
  c_frame_count : Q;
  c_pending : list Frame;
  c_delivered : nat
}.

Record Writer : Type := mkWriter {
  o_path : string;
  o_fourcc : Z;
  o_isOpened : bool
}.

Record World : Type := mkWorld {
  files : gmap string File;
  stdout : list string;
  captures : list Capture;
  writers : list Writer
}.

Inductive CapProp : Type :=
| CAP_PROP_FPS
| CAP_PROP_FRAME_WIDTH
| CAP_PROP_FRAME_HEIGHT
| CAP_PROP_FRAME_COUNT.

Definition closed_capture (path : string) : Capture := mkCapture path false 0 0 0 0 [] 0.

Definition set_capture (h : nat) (c : Capture) (w : World) : World :=
  mkWorld (files w) (stdout w) (<[h := c]> (captures w)) (writers w).

Definition set_writer (h : nat) (o : Writer) (w : World) : World :=
  mkWorld (files w) (stdout w) (captures w) (<[h := o]> (writers w)).

Definition append_frame (frame : Frame) (f : File) : File :=
  match f with
  | Playable v =>
      let fs := (frames v ++ [frame])%list in
      Playable (mkVideo (fps v) (frame_width v) (frame_height v)
                        (inject_Z (Z.of_nat (length fs))) fs)
  | Unplayable => Unplayable
  end.

(** [print(s)]. *)
Definition print (s : string) : ST World unit :=
  fun w => (Ok tt, mkWorld (files w) (stdout w ++ [s])%list (captures w) (writers w)).

(** [cv2.VideoCapture(path)]: a new capture object; it is opened when the
    path holds a video the decoder can play, and then holds the frames of
    that video as they are at this moment. *)
Definition VideoCapture (path : string) : ST World nat :=
  fun w =>
    let c := match files w !! path with
             | Some (Playable v) =>
                 mkCapture path true (fps v) (frame_width v) (frame_height v)
                           (frame_count v) (frames v) 0
             | _ => closed_capture path
             end in
    (Ok (length (captures w)),
     mkWorld (files w) (stdout w) (captures w ++ [c])%list (writers w)).

Definition the_capture (w : World) (cap : nat) : Capture :=
  default (closed_capture "") (captures w !! cap).

(** [cap.isOpened()]. *)
Definition cap_isOpened (cap : nat) : ST World bool :=
  fun w => (Ok (c_isOpened (the_capture w cap)), w).

(** [cap.get(prop)]: a float; [0.0] on a capture that is not opened. *)
Definition cap_get (cap : nat) (prop : CapProp) : ST World Q :=
  fun w =>
    let c := the_capture w cap in
    (Ok (if c_isOpened c then
           match prop with
           | CAP_PROP_FPS => c_fps c
           | CAP_PROP_FRAME_WIDTH => c_frame_width c
           | CAP_PROP_FRAME_HEIGHT => c_frame_height c
           | CAP_PROP_FRAME_COUNT => c_frame_count c
           end
         else 0%Q), w).

(** [cap.read()]: [(True, frame)] as [Some frame], [(False, None)] as [None]. *)
Definition cap_read (cap : nat) : ST World (option Frame) :=
  fun w =>
    let c := the_capture w cap in
    if c_isOpened c then
      match c_pending c with
      | frame :: rest =>
          (Ok (Some frame),
           set_capture cap
             (mkCapture (c_path c) true (c_fps c) (c_frame_width c) (c_frame_height c)
                        (c_frame_count c) rest (S (c_delivered c))) w)
      | [] => (Ok None, w)
      end
    else (Ok None, w).

(** [cap.release()]. *)
Definition cap_release (cap : nat) : ST World unit :=
  fun w =>
    let c := the_capture w cap in
    (Ok tt,
     set_capture cap
       (mkCapture (c_path c) false (c_fps c) (c_frame_width c) (c_frame_height c)
                  (c_frame_count c) (c_pending c) (c_delivered c)) w).

(** [cv2.VideoWriter(path, fourcc, fps, (width, height))]: a new writer
    object; the file at [path] is created, or truncated, as an empty video
    of that frame rate and size. *)
Definition VideoWriter (path : string) (fourcc : Z) (fps_ : Q) (size : Z * Z) : ST World nat :=
  fun w =>
    (Ok (length (writers w)),
     mkWorld (<[path := Playable (mkVideo fps_ (inject_Z (fst size)) (inject_Z (snd size)) 0 [])]> (files w))
             (stdout w) (captures w)
             (writers w ++ [mkWriter path fourcc true])%list).

(** [out.write(frame)]: appends the frame to the writer's file. *)
Definition out_write (out : nat) (frame : Frame) : ST World unit :=
  fun w =>
    match writers w !! out with
    | Some o =>
        if o_isOpened o then
          (Ok tt, mkWorld (alter (append_frame frame) (o_path o) (files w))
                          (stdout w) (captures w) (writers w))
        else (Ok tt, w)
    | None => (Ok tt, w)
    end.

(** [out.release()]. *)
Definition out_release (out : nat) : ST World unit :=
  fun w =>
    match writers w !! out with
    | Some o => (Ok tt, set_writer out (mkWriter (o_path o) (o_fourcc o) false) w)
    | None => (Ok tt, w)
    end.

(** Runs a block that mutates the local [frame] in place; the world is not
    touched.  The value is the frame after the block. *)
Definition in_place (frame : Frame) (block : ST Frame unit) : ST World Frame :=
  fun w =>
    match block frame with
    | (Ok _, frame') => (Ok frame', w)
    | (Raise e, _) => (Raise e, w)
    | (OutOfFuel, _) => (OutOfFuel, w)
    end.

(** ** The script *)

Section Script.

(** [from config import classes, input_dir, output_dir]. *)
Variable classes : gmap Z string.
Variables input_dir output_dir : string.

(** [get_cap_info(cap)]: (fps, width, height, frames_total). *)
Definition get_cap_info (cap : nat) : ST World (Q * Z * Z * Z) :=
  fps_ ← cap_get cap CAP_PROP_FPS;
  width ← cap_get cap CAP_PROP_FRAME_WIDTH;
  height ← cap_get cap CAP_PROP_FRAME_HEIGHT;
  frames_total ← cap_get cap CAP_PROP_FRAME_COUNT;
  mret (fps_, Py.int width, Py.int height, Py.int frames_total).

(** The body of [for box, conf, cls_id in zip(boxes, confs, class_ids)]. *)
Definition draw_detection (d : Box * Q * Q) : ST Frame unit :=
  let '(box, conf_, cls_id) := d in
  let '(x1, y1, x2, y2) := box in
  let x1 := Py.int x1 in
  let y1 := Py.int y1 in
  let x2 := Py.int x2 in
  let y2 := Py.int y2 in
  Cv2.rectangle (x1, y1) (x2, y2) (0, 255, 0) 2 ;;
  name ← getitem classes (Py.int cls_id);
  let label := name +:+ " " +:+ Py.format_2f conf_ in
  Cv2.putText label (x1, Py.max (y1 - 10) 0) FONT_HERSHEY_SIMPLEX (1 # 2)
              (0, 255, 255) 2.

(** [if boxes is not None: for ... in zip(boxes, confs, class_ids): ...]. *)
Definition draw_detections (results : Boxes) : ST Frame unit :=
  match xyxy results with
  | Some boxes => for_each (zip3 boxes (conf results) (cls results)) draw_detection
  | None => mret tt
  end.

(** The [while True] loop of [process_video], unrolled at most [fuel]
    times. *)
Fixpoint read_loop (fuel : nat) (cap out : nat) (model : Detector)
    (frames_total frame_counter : Z) : ST World unit :=
  match fuel with
  | O => out_of_fuel
  | S fuel' =>
      r ← cap_read cap;
      match r with
      | None => mret tt
      | Some frame =>
          let frame_counter := frame_counter + 1 in
          let results := model frame in
          frame ← in_place frame (draw_detections results);
          out_write out frame ;;
          print ("Frames processed " +:+ Py.str frame_counter +:+ "/"
                   +:+ Py.str frames_total) ;;
          read_loop fuel' cap out model frames_total frame_counter
      end
  end.

Definition process_video_fuel (fuel : nat) (video_path filename : string)
    (model : Detector) : ST World unit :=
  cap ← VideoCapture video_path;
  opened ← cap_isOpened cap;
  if negb opened then
    print ("Не удалось открыть видео " +:+ video_path)
  else
    info ← get_cap_info cap;
    let '(fps_, width, height, frames_total) := info in
    let base_name := fst (OsPath.splitext filename) in
    let output_video_path := OsPath.join output_dir (base_name +:+ "_processed.mp4") in
    let fourcc := Cv2.VideoWriter_fourcc "m" "p" "4" "v" in
    out ← VideoWriter output_video_path fourcc fps_ (width, height);
    read_loop fuel cap out model frames_total (-1) ;;
    cap_release cap ;;
    out_release out ;;
    print ("Сохранён обработанный файл: " +:+ output_video_path).

(** The number of frames the decoder finds at [path]. *)
Definition frames_at (w : World) (path : string) : nat :=
  match files w !! path with
  | Some (Playable v) => length (frames v)
  | _ => O
  end.

(** [process_video(video_path, filename, model)].  The loop ends at the
    first failed read, one read after the last frame. *)
Definition process_video (video_path filename : string) (model : Detector) : ST World unit :=
  fun w => process_video_fuel (S (frames_at w video_path)) video_path filename model w.

Definition video_extensions : list string := [".mp4"; ".avi"; ".mov"; ".mkv"].

(** [filename.lower().endswith((".mp4", ".avi", ".mov", ".mkv"))]. *)
Definition is_video (filename : string) : bool :=
  Py.endswith_any (Py.lower filename) video_extensions.

(** [main()], from the point where [YOLO(...)] has returned [model],
    [os.makedirs] has returned and [os.listdir(input_dir)] has returned
    [listing]. *)
Definition main (listing : list string) (model : Detector) : ST World unit :=
  for_each listing (fun filename =>
    if is_video filename then
      let video_path := OsPath.join input_dir filename in
      process_video video_path filename model
    else mret tt) ;;
  print "Обработка завершена.".

End Script.

(** ** Predicates on file names *)

(** The character [c] occurs in [s]. *)
Fixpoint occurs (c : ascii) (s : string) : bool :=
  match s with
  | EmptyString => false
  | String d s' => (Ascii.eqb d c || occurs c s')%bool
  end.

(** Every character of [s] is a dot (so is the empty string). *)
Fixpoint all_dots (s : string) : bool :=
  match s with
  | EmptyString => true
  | String d s' => (Ascii.eqb d "."%char && all_dots s')%bool
  end.

(** ** What the built-ins are to do

    Statements of [int] and of the [.2f] format that do not mention the
    definitions of [Py.int] and [Py.format_2f]; [int_truncation] and
    [format_2f_two_decimals] prove that the definitions meet them. *)

(** [n] is [x] truncated toward zero. *)
Definition truncation (x : Q) (n : Z) : Prop :=
  ((0 <= x)%Q -> 0 <= n /\ (inject_Z n <= x)%Q /\ (x < inject_Z (n + 1))%Q) /\
  ((x <= 0)%Q -> n <= 0 /\ (x <= inject_Z n)%Q /\ (inject_Z (n - 1) < x)%Q).

(** The value of a decimal digit. *)
Definition digit_value (c : ascii) : option Z :=
  let n := Z.of_nat (nat_of_ascii c) in
  if (48 <=? n) && (n <=? 57) then Some (n - 48) else None.

(** The number a string of decimal digits denotes, read from the left. *)
Fixpoint digits_value_from (acc : Z) (s : string) : option Z :=
  match s with
  | EmptyString => Some acc
  | String c s' =>
      match digit_value c with
      | Some d => digits_value_from (10 * acc + d) s'
      | None => None
      end
  end.

Definition digits_value (s : string) : option Z :=
  match s with
  | EmptyString => None
  | _ => digits_value_from 0 s
  end.

(** [s] is [x] written with two decimals: a minus sign when [x] is
    negative, the digits of a whole part, a point and exactly two digits,
    the number so written being a nearest hundredth of [|x|]. *)
Definition two_decimals (x : Q) (s : string) : Prop :=
  exists (whole : string) (c1 c2 : ascii) (w d1 d2 : Z),
    s = (if Qnum x <? 0 then "-" else "") +:+ whole +:+ "."
          +:+ String c1 (String c2 "") /\
    digits_value whole = Some w /\
    digit_value c1 = Some d1 /\
    digit_value c2 = Some d2 /\
    (Qabs (Qabs x - ((100 * w + 10 * d1 + d2) # 100)) <= 1 # 200)%Q.

(** The check of [Py.two_digits] on one number below 100. *)
Definition two_digits_check (k : nat) : bool :=
  match Py.two_digits (Z.of_nat k) with
  | String c1 (String c2 EmptyString) =>
      match digit_value c1, digit_value c2 with
      | Some d1, Some d2 =>
          (d1 =? Z.of_nat k / 10) && (d2 =? Z.of_nat k mod 10)
      | _, _ => false
      end
  | _ => false
  end.

(** ** Summaries of the two loops

    Pure functions that say, for a list of detections or of frames, what
    the loops of [process_video] do with it.  The lemmas
    [for_each_draw_detection] and [read_loop_summary] below prove that the
    loops compute them. *)

Section Summaries.

Variable classes : gmap Z string.
Variable output_dir : string.

(** The detections the inner loop iterates over. *)
Definition detections (results : Boxes) : list (Box * Q * Q) :=
  match xyxy results with
  | Some boxes => zip3 boxes (conf results) (cls results)
  | None => []
  end.

(** The class id of a detection has a name in the table. *)
Definition mapped (d : Box * Q * Q) : Prop :=
  is_Some (classes !! Py.int (snd d)).

(** The drawing calls the inner loop makes on a list of detections: a
    rectangle and a label per detection, up to the first detection whose
    class id is not in the table, of which only the rectangle is drawn. *)
Fixpoint calls_drawn (ds : list (Box * Q * Q)) : list DrawCall :=
  match ds with
  | [] => []
  | (x1, y1, x2, y2, conf_, cls_id) :: ds' =>
      Rectangle (Py.int x1, Py.int y1) (Py.int x2, Py.int y2) (0, 255, 0) 2 ::
      match classes !! Py.int cls_id with
      | Some name =>
          PutText (name +:+ " " +:+ Py.format_2f conf_)
                  (Py.int x1, Py.max (Py.int y1 - 10) 0)
                  FONT_HERSHEY_SIMPLEX (1 # 2) (0, 255, 255) 2 ::
          calls_drawn ds'
      | None => []
      end
  end.

(** A frame all of whose detections have a class name. *)
Definition all_mapped (model : Detector) (f : Frame) : Prop :=
  Forall mapped (detections (model f)).

(** The outcome of the inner loop: the first failed lookup, if any. *)
Fixpoint draw_outcome (ds : list (Box * Q * Q)) : outcome unit :=
  match ds with
  | [] => Ok tt
  | (_, _, cls_id) :: ds' =>
      match classes !! Py.int cls_id with
      | Some _ => draw_outcome ds'
      | None => Raise (KeyError (Py.int cls_id))
      end
  end.

(** One iteration's work on the frame just read: the outcome, and the
    frame after the drawing block. *)
Definition annotate (model : Detector) (frame : Frame) : outcome unit * Frame :=
  draw_detections classes (model frame) frame.

(** The frames the outer loop writes when the capture still holds [fs]:
    the annotated frames, up to the first one whose annotation raises. *)
Fixpoint written_frames (model : Detector) (fs : list Frame) : list Frame :=
  match fs with
  | [] => []
  | f :: fs' =>
      match annotate model f with
      | (Ok _, f') => f' :: written_frames model fs'
      | _ => []
      end
  end.

(** The outcome of the outer loop. *)
Fixpoint loop_outcome (model : Detector) (fs : list Frame) : outcome unit :=
  match fs with
  | [] => Ok tt
  | f :: fs' =>
      match annotate model f with
      | (Ok _, _) => loop_outcome model fs'
      | (Raise e, _) => Raise e
      | (OutOfFuel, _) => OutOfFuel
      end
  end.

(** The number of successful [cap.read()] calls of the outer loop. *)
Fixpoint frames_read (model : Detector) (fs : list Frame) : nat :=
  match fs with
  | [] => O
  | f :: fs' =>
      match annotate model f with
      | (Ok _, _) => S (frames_read model fs')
      | _ => 1%nat
      end
  end.

(** A capture after [k] more successful reads. *)
Definition advance (c : Capture) (k : nat) : Capture :=
  mkCapture (c_path c) (c_isOpened c) (c_fps c) (c_frame_width c)
            (c_frame_height c) (c_frame_count c)
            (drop k (c_pending c)) (c_delivered c + k).

(** The [n] progress lines printed from frame counter [first] on. *)
Definition progress_lines (frames_total first : Z) (n : nat) : list string :=
  map (fun i => "Frames processed " +:+ Py.str (first + Z.of_nat i) +:+ "/"
                  +:+ Py.str frames_total) (seq 0 n).

(** The file a writer of frame rate [fps_] and frame size [size] has
    produced once the frames [fs] are written. *)
Definition sink_file (fps_ : Q) (size : Z * Z) (fs : list Frame) : File :=
  Playable (mkVideo fps_ (inject_Z (fst size)) (inject_Z (snd size))
                    (inject_Z (Z.of_nat (length fs))) fs).

(** Lines 66-67 of the script: the output path of [filename]. *)
Definition output_video_path (filename : string) : string :=
  OsPath.join output_dir (fst (OsPath.splitext filename) +:+ "_processed.mp4").

(** The frames of the video stored at [path], if any. *)
Definition frames_of (w : World) (path : string) : option (list Frame) :=
  match files w !! path with
  | Some (Playable v) => Some (frames v)
  | _ => None
  end.

(** A capture or writer object holds no resource: it is not opened. *)
Definition capture_released (c : Capture) : Prop := c_isOpened c = false.
Definition writer_released (o : Writer) : Prop := o_isOpened o = false.

End Summaries.

(** ** A test scenario: two classes, a three-frame clip, a text file *)

Module Scenario.

Definition classes : gmap Z string := <[0 := "person"]> (<[1 := "car"]> ∅).

Definition blank (n : Z) : Frame := mkFrame [n] [].

Definition clip : Video :=
  mkVideo (10 # 1) (640 # 1) (480 # 1) (3 # 1) [blank 0; blank 1; blank 2].

Definition short : Video :=
  mkVideo (25 # 1) (320 # 1) (240 # 1) (1 # 1) [blank 1].

(** Two detections on the frame whose raster is [[1]], none elsewhere. *)
Definition two_on_second : Detector := fun f =>
  match raster f with
  | [1] => mkBoxes (Some [(21 # 2, 7 # 2, 100 # 1, 200 # 1);
                          (-5 # 2, 50 # 1, 700 # 1, 500 # 1)])
                   [91 # 100; 42 # 100] [0 # 1; 1 # 1]
  | _ => mkBoxes None [] []
  end.

(** Class id 7, which [classes] does not name, on the frame [[1]]. *)
Definition unknown_on_second : Detector := fun f =>
  match raster f with
  | [1] => mkBoxes (Some [(1 # 1, 2 # 1, 3 # 1, 4 # 1)]) [1 # 2] [7 # 1]
  | _ => mkBoxes None [] []
  end.

Definition world : World :=
  mkWorld (<["in/clip.mp4" := Playable clip]>
             (<["in/clip.avi" := Playable short]>
                (<["in/notes.txt" := Unplayable]> ∅)))
          [] [] [].

(** The runs of [process_video] on the clip, with either detector. *)
Definition after_clip : World :=
  snd (process_video classes "out" "in/clip.mp4" "clip.mp4" two_on_second world).

Definition after_unknown : World :=
  snd (process_video classes "out" "in/clip.mp4" "clip.mp4" unknown_on_second world).

(** The batch over a listing with a text file, the clip and a missing
    video. *)
Definition listing : list string := ["notes.txt"; "clip.mp4"; "bad.MP4"].

Definition after_batch : World :=
  snd (main classes "in" "out" listing two_on_second world).

End Scenario.

(** ** A second scenario: an empty video, uneven detector sequences *)

Module Scenario2.

Definition empty_video : Video := mkVideo (25 # 1) (320 # 1) (240 # 1) (0 # 1) [].

Definition world : World :=
  mkWorld (<["in/empty.mp4" := Playable empty_video]> (files Scenario.world)) [] [] [].

(** Two detections, the first of class 7, which has no name. *)
Definition unknown_first : Boxes :=
  mkBoxes (Some [(1 # 1, 2 # 1, 3 # 1, 4 # 1); (5 # 1, 6 # 1, 7 # 1, 8 # 1)])
          [1 # 2; 9 # 10] [7 # 1; 0 # 1].

(** Two boxes, one confidence, three class ids. *)
Definition uneven : Boxes :=
  mkBoxes (Some [(1 # 1, 2 # 1, 3 # 1, 4 # 1); (5 # 1, 6 # 1, 7 # 1, 8 # 1)])
          [1 # 2] [0 # 1; 1 # 1; 0 # 1].

(** A second run on the clip, after the first. *)
Definition after_second_run : World :=
  snd (process_video Scenario.classes "out" "in/clip.mp4" "clip.mp4"
                     Scenario.two_on_second Scenario.after_clip).

End Scenario2.

(** ** Properties *)

(** Unfolds the monad's operations. *)
Ltac st_unfold := unfold mbind, mret, ST_bind, ST_ret, raise, out_of_fuel in *.

Lemma world_eta (w : World) :
  mkWorld (files w) (stdout w) (captures w) (writers w) = w.
Proof. by destruct w. Qed.

Lemma for_each_app {S A} (xs ys : list A) (body : A -> ST S unit) (s : S) :
  for_each (xs ++ ys)%list body s =
  match for_each xs body s with
  | (Ok _, s') => for_each ys body s'
  | other => other
  end.
Proof.
  revert s. induction xs as [|x xs IH]; intros s; simpl.
  - done.
  - st_unfold. by destruct (body x s) as [[[]| |] s'].
Qed.

(** *** Strings and paths *)

Example splitext_clip : OsPath.splitext "clip.mp4" = ("clip", ".mp4").
Proof. reflexivity. Qed.

Example splitext_hidden : OsPath.splitext ".mp4" = (".mp4", "").
Proof. reflexivity. Qed.

Example splitext_two_dots : OsPath.splitext "a.tar.MKV" = ("a.tar", ".MKV").
Proof. reflexivity. Qed.

Example join_plain : OsPath.join "out" "clip_processed.mp4" = "out/clip_processed.mp4".
Proof. reflexivity. Qed.

Example join_slash : OsPath.join "out/" "x.mp4" = "out/x.mp4".
Proof. reflexivity. Qed.

Example format_091 : Py.format_2f (91 # 100) = "0.91".
Proof. vm_compute. reflexivity. Qed.

Example format_tie : Py.format_2f (1 # 8) = "0.12".
Proof. vm_compute. reflexivity. Qed.

Example format_round_up : Py.format_2f (999 # 1000) = "1.00".
Proof. vm_compute. reflexivity. Qed.

Example int_toward_zero : Py.int (-7 # 2) = -3 /\ Py.int (7 # 2) = 3.
Proof. split; reflexivity. Qed.

Example is_video_upper : is_video "Clip.MkV" = true /\ is_video "notes.txt" = false.
Proof. split; reflexivity. Qed.

Lemma append_nil_l (b : string) : "" +:+ b = b.
Proof. reflexivity. Qed.

Lemma append_cons (x : ascii) (a b : string) : String x a +:+ b = String x (a +:+ b).
Proof. reflexivity. Qed.

Lemma prefix_iff (p s : string) :
  String.prefix p s = true <-> exists t, s = p +:+ t.
Proof.
  revert s. induction p as [|a p IH]; intros s.
  - split; [intros _; by exists s | intros _; by destruct s].
  - destruct s as [|b s]; simpl.
    + split; [done | by intros [t ?]].
    + destruct (ascii_dec a b) as [->|Hne].
      * rewrite IH. split; intros [t Ht]; exists t.
        -- by rewrite Ht.
        -- rewrite append_cons in Ht. by injection Ht.
      * split; [done | intros [t Ht]]. rewrite append_cons in Ht. by injection Ht.
Qed.

Lemma string_app_assoc (a b c : string) : (a +:+ b) +:+ c = a +:+ (b +:+ c).
Proof. induction a as [|x a IH]; [done|]. by rewrite !append_cons, IH. Qed.

Lemma string_app_nil_r (a : string) : a +:+ "" = a.
Proof. induction a as [|x a IH]; [done|]. by rewrite append_cons, IH. Qed.

Lemma rev_app_spec (s1 s2 : string) : String.rev_app s1 s2 = String.rev s1 +:+ s2.
Proof.
  revert s2. induction s1 as [|a s1 IH]; intros s2; simpl; [done|].
  unfold String.rev. simpl. by rewrite (IH (String a "")), IH, string_app_assoc.
Qed.

Lemma rev_cons (a : ascii) (s : string) : String.rev (String a s) = String.rev s +:+ String a "".
Proof. unfold String.rev. simpl. by rewrite rev_app_spec. Qed.

Lemma rev_app_distr (a b : string) : String.rev (a +:+ b) = String.rev b +:+ String.rev a.
Proof.
  induction a as [|x a IH].
  - by rewrite append_nil_l, string_app_nil_r.
  - by rewrite append_cons, !rev_cons, IH, string_app_assoc.
Qed.

Lemma rev_involutive (s : string) : String.rev (String.rev s) = s.
Proof.
  induction s as [|x s IH]; [done|].
  by rewrite rev_cons, rev_app_distr, IH.
Qed.

Lemma endswith_iff (s p : string) :
  Py.endswith s p = true <-> exists pre, s = pre +:+ p.
Proof.
  unfold Py.endswith. rewrite prefix_iff. split.
  - intros [t Ht]. exists (String.rev t).
    rewrite <- (rev_involutive s), Ht, rev_app_distr. by rewrite rev_involutive.
  - intros [pre ->]. exists (String.rev pre). apply rev_app_distr.
Qed.

Lemma lower_app (a b : string) : Py.lower (a +:+ b) = Py.lower a +:+ Py.lower b.
Proof.
  induction a as [|x a IH]; [done|].
  rewrite append_cons. simpl. by rewrite IH.
Qed.

Lemma lower_split (s a b : string) :
  Py.lower s = a +:+ b -> exists x y, s = x +:+ y /\ Py.lower x = a /\ Py.lower y = b.
Proof.
  revert s. induction a as [|c a IH]; intros s H.
  - by exists "", s.
  - destruct s as [|d s]; [done|]. rewrite append_cons in H. simpl in H.
    injection H as Hc Hs.
    destruct (IH s Hs) as (x & y & -> & <- & <-).
    exists (String d x), y. simpl. by rewrite Hc.
Qed.

Lemma is_video_iff (filename : string) :
  is_video filename = true <->
  exists stem ext, filename = stem +:+ ext /\ In (Py.lower ext) [".mp4"; ".avi"; ".mov"; ".mkv"].
Proof.
  unfold is_video, Py.endswith_any. rewrite existsb_exists. split.
  - intros (e & He & Hend). apply endswith_iff in Hend as [pre Hpre].
    destruct (lower_split _ _ _ Hpre) as (x & y & -> & _ & <-). by exists x, y.
  - intros (stem & ext & -> & Hin). exists (Py.lower ext). split; [done|].
    apply endswith_iff. exists (Py.lower stem). apply lower_app.
Qed.

Lemma length_append (a b : string) :
  String.length (a +:+ b) = (String.length a + String.length b)%nat.
Proof. induction a as [|x a IH]; [done|]. rewrite append_cons. simpl. by rewrite IH. Qed.

Lemma rfind_from_app (c : ascii) (s t : string) (i last : Z) :
  Py.rfind_from c (s +:+ t) i last =
  Py.rfind_from c t (i + Z.of_nat (String.length s)) (Py.rfind_from c s i last).
Proof.
  revert i last. induction s as [|d s IH]; intros i last.
  - rewrite append_nil_l. simpl. by rewrite Z.add_0_r.
  - rewrite append_cons. simpl Py.rfind_from. rewrite IH. f_equal.
    simpl String.length. lia.
Qed.

Lemma rfind_from_absent (c : ascii) (s : string) (i last : Z) :
  occurs c s = false -> Py.rfind_from c s i last = last.
Proof.
  revert i last. induction s as [|d s IH]; intros i last H; simpl in *; [done|].
  apply orb_false_iff in H as [Hd Hs]. by rewrite Hd, IH.
Qed.

Lemma get_middle (s0 : string) (c : ascii) (r : string) :
  String.get (String.length s0) (s0 +:+ String c r) = Some c.
Proof. induction s0 as [|d s0 IH]; [done|]. by rewrite append_cons. Qed.

Lemma has_non_dot_spec (s0 s t : string) :
  OsPath.has_non_dot (s0 +:+ s +:+ t) (Z.of_nat (String.length s0)) (String.length s)
  = negb (all_dots s).
Proof.
  revert s0. induction s as [|c s IH]; intros s0; [done|].
  rewrite append_cons. simpl. rewrite Nat2Z.id, get_middle.
  destruct (Ascii.eqb c ".") eqn:E; [|done]. simpl.
  replace (s0 +:+ String c (s +:+ t)) with ((s0 +:+ String c "") +:+ s +:+ t)
    by (by rewrite string_app_assoc).
  replace (Z.of_nat (String.length s0) + 1)
    with (Z.of_nat (String.length (s0 +:+ String c ""))).
  - apply IH.
  - rewrite length_append. simpl. lia.
Qed.

Lemma substring_prefix (s t : string) :
  String.substring 0 (String.length s) (s +:+ t) = s.
Proof.
  induction s as [|c s IH].
  - simpl. by destruct t.
  - rewrite append_cons. simpl. by rewrite IH.
Qed.

Lemma substring_all (t : string) : String.substring 0 (String.length t) t = t.
Proof. rewrite <- (string_app_nil_r t) at 2. apply substring_prefix. Qed.

Lemma substring_suffix (s t : string) (n : nat) :
  String.substring (String.length s) n (s +:+ t) = String.substring 0 n t.
Proof. induction s as [|c s IH]; [done|]. by rewrite append_cons. Qed.

Lemma rfind_sep (stem ext' : string) :
  occurs "/" stem = false -> occurs "/" ext' = false ->
  Py.rfind (stem +:+ String "." ext') "/" = -1.
Proof.
  intros Hs He. unfold Py.rfind. rewrite rfind_from_app. simpl.
  by rewrite (rfind_from_absent "/" ext'), (rfind_from_absent "/" stem).
Qed.

Lemma rfind_dot (stem ext' : string) :
  occurs "." ext' = false ->
  Py.rfind (stem +:+ String "." ext') "." = Z.of_nat (String.length stem).
Proof.
  intros He. unfold Py.rfind. rewrite rfind_from_app. simpl.
  by rewrite (rfind_from_absent "." ext').
Qed.

Lemma splitext_stem_ext (stem ext' : string) :
  occurs "/" stem = false ->
  all_dots stem = false ->
  occurs "." ext' = false ->
  occurs "/" ext' = false ->
  OsPath.splitext (stem +:+ String "." ext') = (stem, String "." ext').
Proof.
  intros Hs Hd He1 He2. unfold OsPath.splitext.
  rewrite rfind_sep, rfind_dot by done.
  assert ((-1 <? Z.of_nat (String.length stem)) = true) as -> by (apply Z.ltb_lt; lia).
  replace (Z.to_nat (Z.of_nat (String.length stem) - (-1 + 1))) with (String.length stem) by lia.
  pose proof (has_non_dot_spec "" stem (String "." ext')) as Hn.
  rewrite append_nil_l in Hn. change (Z.of_nat (String.length "")) with 0 in Hn.
  change (-1 + 1) with 0. rewrite Hn, Hd. simpl.
  unfold Py.slice_to, Py.slice_from. rewrite Nat2Z.id, substring_prefix.
  rewrite substring_suffix, length_append.
  replace (String.length stem + String.length (String "." ext') - String.length stem)%nat
    with (String.length (String "." ext')) by lia.
  by rewrite substring_all.
Qed.

Lemma lower_char_fixes (c d : ascii) :
  Py.lower_char c = d ->
  (Nat.leb 97 (nat_of_ascii d) && Nat.leb (nat_of_ascii d) 122)%bool = false ->
  c = d.
Proof.
  intros <-. destruct c as [[] [] [] [] [] [] [] []]; vm_compute; congruence.
Qed.

Lemma video_extension_shape (ext : string) :
  In (Py.lower ext) video_extensions ->
  exists ext', ext = String "." ext' /\ occurs "." ext' = false /\ occurs "/" ext' = false.
Proof.
  intros Hin.
  destruct ext as [|c0 [|c1 [|c2 [|c3 [|c4 r]]]]];
    try (simpl in Hin; intuition congruence).
  assert (Py.lower_char c0 = "."%char) as H0.
  { simpl in Hin. intuition congruence. }
  apply lower_char_fixes in H0; [|done]. subst c0.
  exists (String c1 (String c2 (String c3 ""))). split; [done|].
  assert (forall c : ascii, In (Py.lower_char c) (list_ascii_of_string "mp4avimovmkv") ->
          Ascii.eqb c "." = false /\ Ascii.eqb c "/" = false) as Hc.
  { intros c. destruct c as [[] [] [] [] [] [] [] []]; vm_compute; intuition congruence. }
  assert (In (Py.lower_char c1) (list_ascii_of_string "mp4avimovmkv") /\
          In (Py.lower_char c2) (list_ascii_of_string "mp4avimovmkv") /\
          In (Py.lower_char c3) (list_ascii_of_string "mp4avimovmkv")) as (H1 & H2 & H3).
  { simpl in Hin. destruct Hin as [H|[H|[H|[H|[]]]]]; injection H as <- <- <-;
      simpl; tauto. }
  apply Hc in H1 as [E1 F1], H2 as [E2 F2], H3 as [E3 F3].
  simpl. by rewrite E1, E2, E3, F1, F2, F3.
Qed.

Lemma rfind_last_sep (x a : string) :
  occurs "/" a = false ->
  (x = "" \/ exists x', x = x' +:+ "/") ->
  Py.rfind (x +:+ a) "/" = Z.of_nat (String.length x) - 1.
Proof.
  intros Ha [->|[x' ->]]; unfold Py.rfind.
  - rewrite append_nil_l. by rewrite rfind_from_absent.
  - rewrite rfind_from_app, (rfind_from_absent "/" a) by done.
    rewrite rfind_from_app. simpl. rewrite length_append. simpl. lia.
Qed.

Lemma append_same_length (x y a b : string) :
  x +:+ a = y +:+ b -> String.length x = String.length y -> x = y /\ a = b.
Proof.
  revert y. induction x as [|c x IH]; intros [|d y] H Hl; try done.
  rewrite !append_cons in H. injection H as -> H. injection Hl as Hl.
  destruct (IH y H Hl) as [-> ->]. done.
Qed.

Lemma join_shape (a b : string) :
  Py.startswith b "/" = false ->
  exists x, OsPath.join a b = x +:+ b /\ (x = "" \/ exists x', x = x' +:+ "/").
Proof.
  intros Hb. unfold OsPath.join. rewrite Hb.
  destruct (String.eqb a "") eqn:Ea; simpl.
  - apply String.eqb_eq in Ea as ->. exists "". split; [done | by left].
  - destruct (Py.endswith a "/") eqn:Ee.
    + exists a. split; [done|]. right. by apply endswith_iff.
    + exists (a +:+ "/"). split; [by rewrite string_app_assoc|]. right. by exists a.
Qed.

Lemma occurs_app (c : ascii) (a b : string) :
  occurs c (a +:+ b) = (occurs c a || occurs c b)%bool.
Proof.
  induction a as [|d a IH]; [done|]. rewrite append_cons. simpl.
  by rewrite IH, orb_assoc.
Qed.

Lemma startswith_sep_absent (b : string) :
  occurs "/" b = false -> Py.startswith b "/" = false.
Proof.
  intros H. unfold Py.startswith. destruct b as [|c b]; [done|]. simpl in H.
  apply orb_false_iff in H as [Hc _].
  change (String.prefix "/" (String c b))
    with (if ascii_dec "/" c then String.prefix "" b else false).
  destruct (ascii_dec "/" c) as [<-|?]; [|done]. by rewrite Ascii.eqb_refl in Hc.
Qed.

Lemma join_injective_on_names (a1 a2 b1 b2 : string) :
  occurs "/" b1 = false -> occurs "/" b2 = false ->
  OsPath.join a1 b1 = OsPath.join a2 b2 -> b1 = b2.
Proof.
  intros H1 H2 Heq.
  destruct (join_shape a1 b1 (startswith_sep_absent _ H1)) as (x1 & E1 & S1).
  destruct (join_shape a2 b2 (startswith_sep_absent _ H2)) as (x2 & E2 & S2).
  rewrite E1, E2 in Heq.
  pose proof (rfind_last_sep x1 b1 H1 S1) as R1.
  pose proof (rfind_last_sep x2 b2 H2 S2) as R2.
  rewrite Heq, R2 in R1.
  by destruct (append_same_length x1 x2 b1 b2 Heq ltac:(lia)).
Qed.

Lemma substring_split (s : string) (n : nat) :
  String.substring 0 n s +:+ String.substring n (String.length s - n) s = s.
Proof.
  revert n. induction s as [|c s IH]; intros [|n]; try done.
  - simpl String.length. rewrite Nat.sub_0_r. simpl String.substring at 1.
    rewrite append_nil_l. apply (substring_all (String c s)).
  - simpl. rewrite append_cons. by rewrite IH.
Qed.

Lemma rfind_from_last (c : ascii) (s : string) (i last : Z) :
  occurs c s = true ->
  exists a b, s = a +:+ String c b /\ occurs c b = false /\
              Py.rfind_from c s i last = i + Z.of_nat (String.length a).
Proof.
  revert i last. induction s as [|d s IH]; intros i last H; [done|].
  simpl in H. destruct (occurs c s) eqn:Hs.
  - destruct (IH (i + 1) (if Ascii.eqb d c then i else last) eq_refl)
      as (a & b & -> & Hb & Hr).
    exists (String d a), b. rewrite append_cons. split; [done|]. split; [done|].
    simpl Py.rfind_from. rewrite Hr. simpl String.length. lia.
  - rewrite orb_false_r in H. apply Ascii.eqb_eq in H as ->.
    exists "", s. split; [done|]. split; [done|].
    simpl. rewrite Ascii.eqb_refl. rewrite rfind_from_absent by done. lia.
Qed.

Lemma rfind_lower_bound (c : ascii) (s : string) : -1 <= Py.rfind s c.
Proof.
  unfold Py.rfind. destruct (occurs c s) eqn:H.
  - destruct (rfind_from_last c s 0 (-1) H) as (a & b & _ & _ & ->). lia.
  - by rewrite rfind_from_absent.
Qed.

Lemma splitext_shape (p root ext : string) :
  OsPath.splitext p = (root, ext) ->
  p = root +:+ ext /\
  (ext = "" \/
   exists e, ext = String "." e /\ occurs "." e = false /\ occurs "/" e = false).
Proof.
  unfold OsPath.splitext.
  destruct (occurs "." p) eqn:Hdot.
  - destruct (rfind_from_last "." p 0 (-1) Hdot) as (a & b & Hp & Hb & Hr).
    fold (Py.rfind p ".") in Hr. rewrite Hr.
    destruct ((Py.rfind p "/" <? 0 + Z.of_nat (String.length a))
              && OsPath.has_non_dot p (Py.rfind p "/" + 1)
                   (Z.to_nat (0 + Z.of_nat (String.length a) - (Py.rfind p "/" + 1))))
      eqn:Hc.
    + intros [= <- <-]. unfold Py.slice_to, Py.slice_from.
      split; [by rewrite substring_split|]. right.
      apply andb_true_iff in Hc as [Hlt _]. apply Z.ltb_lt in Hlt.
      replace (Z.to_nat (0 + Z.of_nat (String.length a))) with (String.length a) by lia.
      rewrite Hp. rewrite substring_suffix, length_append.
      replace (String.length a + String.length (String "." b) - String.length a)%nat
        with (String.length (String "." b)) by lia.
      rewrite substring_all. exists b. split; [done|]. split; [done|].
      destruct (occurs "/" b) eqn:Hsb; [|done]. exfalso.
      rewrite Hp in Hlt. unfold Py.rfind in Hlt. rewrite rfind_from_app in Hlt.
      simpl Py.rfind_from in Hlt.
      destruct (rfind_from_last "/" b (0 + Z.of_nat (String.length a) + 1)
                  (Py.rfind_from "/" a 0 (-1)) Hsb) as (a' & b' & _ & _ & Hr').
      rewrite Hr' in Hlt. lia.
    + intros [= <- <-]. split; [by rewrite string_app_nil_r | by left].
  - assert (Py.rfind p "." = -1) as Hd.
    { unfold Py.rfind. by rewrite rfind_from_absent. }
    cbv zeta. rewrite Hd.
    pose proof (rfind_lower_bound "/" p) as Hlb.
    assert ((Py.rfind p "/" <? -1) = false) as -> by (apply Z.ltb_ge; lia).
    simpl. intros [= <- <-]. split; [by rewrite string_app_nil_r | by left].
Qed.

Lemma all_dots_app (a b : string) :
  all_dots (a +:+ b) = (all_dots a && all_dots b)%bool.
Proof.
  induction a as [|c a IH]; [done|]. rewrite append_cons. simpl.
  by rewrite IH, andb_assoc.
Qed.

Lemma int_truncates (x : Q) :
  ((0 <= x)%Q -> (inject_Z (Py.int x) <= x)%Q /\ (x < inject_Z (Py.int x + 1))%Q /\ 0 <= Py.int x) /\
  ((x <= 0)%Q -> (x <= inject_Z (Py.int x))%Q /\ (inject_Z (Py.int x - 1) < x)%Q /\ Py.int x <= 0).
Proof.
  destruct x as [n d]. unfold Py.int, Qle, Qlt, inject_Z. simpl.
  split; intros Hs.
  - assert (0 <= n) as Hn by lia.
    pose proof (Z.quot_rem' n (Z.pos d)) as Hqr.
    pose proof (Z.rem_bound_pos n (Z.pos d) Hn ltac:(lia)) as Hb.
    pose proof (Z.quot_pos n (Z.pos d) Hn ltac:(lia)) as Hq.
    generalize dependent (Z.rem n (Z.pos d)). generalize dependent (Z.quot n (Z.pos d)).
    intros q Hq r Hqr Hb. nia.
  - assert (n <= 0) as Hn by lia.
    pose proof (Z.quot_rem' n (Z.pos d)) as Hqr.
    pose proof (Z.rem_bound_abs n (Z.pos d) ltac:(lia)) as Hb.
    pose proof (Z.rem_nonpos n (Z.pos d) ltac:(lia) Hn) as Hr.
    generalize dependent (Z.rem n (Z.pos d)). generalize dependent (Z.quot n (Z.pos d)).
    intros q r Hqr Hb Hr. nia.
Qed.

(** *** The built-ins meet their statements *)

Lemma digit_value_char (x : N) :
  (x < 10)%N -> digit_value (pretty_N_char x) = Some (Z.of_N x).
Proof.
  intros H.
  assert (x = 0 \/ x = 1 \/ x = 2 \/ x = 3 \/ x = 4 \/ x = 5 \/ x = 6 \/ x = 7
          \/ x = 8 \/ x = 9)%N as Hx by lia.
  destruct Hx as [->|[->|[->|[->|[->|[->|[->|[->|[->| ->]]]]]]]]]; reflexivity.
Qed.

Lemma digits_value_from_go (x : N) :
  exists p, 0 < p /\ forall acc s,
    digits_value_from acc (pretty_N_go x s) = digits_value_from (acc * p + Z.of_N x) s.
Proof.
  induction (N.lt_wf_0 x) as [x _ IH].
  destruct (N.eq_dec x 0%N) as [->|Hx].
  - exists 1. split; [lia|]. intros acc s. rewrite pretty_N_go_0. f_equal. lia.
  - assert (0 < x)%N as Hpos by lia.
    destruct (IH (x `div` 10)%N) as (p & Hp & Hgo).
    { by apply N.div_lt. }
    exists (p * 10). split; [lia|]. intros acc s.
    rewrite pretty_N_go_step by done. rewrite Hgo. simpl.
    rewrite digit_value_char by (apply N.mod_lt; lia). f_equal.
    rewrite (N.div_mod x 10) at 3 by lia.
    rewrite N2Z.inj_add, N2Z.inj_mul. simpl. lia.
Qed.

Lemma pretty_N_go_nonempty (x : N) (s : string) :
  (0 < x)%N -> pretty_N_go x s <> "".
Proof.
  revert s. induction (N.lt_wf_0 x) as [x _ IH]. intros s Hx.
  rewrite pretty_N_go_step by done.
  destruct (N.eq_dec (x `div` 10)%N 0%N) as [->|Hd].
  - by rewrite pretty_N_go_0.
  - apply IH; [by apply N.div_lt | by apply N.neq_0_lt_0].
Qed.

Lemma digits_value_str (n : Z) : 0 <= n -> digits_value (Py.str n) = Some n.
Proof.
  intros Hn. unfold Py.str, pretty, pretty_Z. destruct n as [|q|q]; [done| |lia].
  unfold pretty, pretty_positive, pretty, pretty_N.
  destruct (decide (N.pos q = 0%N)) as [|_]; [done|].
  destruct (digits_value_from_go (N.pos q)) as (p & _ & Hgo).
  unfold digits_value.
  destruct (pretty_N_go (N.pos q) "") eqn:E.
  - by apply pretty_N_go_nonempty in E.
  - rewrite <- E, Hgo. simpl. done.
Qed.

Lemma two_digits_value (f : Z) :
  0 <= f < 100 ->
  exists c1 c2,
    Py.two_digits f = String c1 (String c2 "") /\
    digit_value c1 = Some (f / 10) /\ digit_value c2 = Some (f mod 10).
Proof.
  intros Hf.
  assert (forallb two_digits_check (seq 0 100) = true) as Hall
    by (vm_compute; reflexivity).
  rewrite forallb_forall in Hall.
  specialize (Hall (Z.to_nat f)). unfold two_digits_check in Hall.
  rewrite Z2Nat.id in Hall by lia.
  assert (In (Z.to_nat f) (seq 0 100)) as Hin by (apply in_seq; lia).
  specialize (Hall Hin).
  destruct (Py.two_digits f) as [|c1 [|c2 [|]]]; try done.
  destruct (digit_value c1) as [d1|] eqn:E1; [|done].
  destruct (digit_value c2) as [d2|] eqn:E2; [|done].
  apply andb_true_iff in Hall as [H1 H2].
  apply Z.eqb_eq in H1, H2. exists c1, c2. repeat split; congruence.
Qed.

Lemma round_half_even_nearest (a : Z) (b : positive) :
  0 <= a ->
  0 <= Py.round_half_even a b /\
  Z.abs (2 * a - 2 * Py.round_half_even a b * Z.pos b) <= Z.pos b.
Proof.
  intros Ha. unfold Py.round_half_even.
  pose proof (Z.div_mod a (Z.pos b) ltac:(lia)) as Hdm.
  pose proof (Z.mod_pos_bound a (Z.pos b) ltac:(lia)) as Hr.
  pose proof (Z.div_pos a (Z.pos b) Ha ltac:(lia)) as Hd.
  generalize dependent (a mod Z.pos b). generalize dependent (a / Z.pos b).
  intros d Hd r Hdm Hr. cbv zeta.
  destruct (2 * r <? Z.pos b) eqn:E1; [apply Z.ltb_lt in E1; nia|].
  apply Z.ltb_ge in E1.
  destruct (Z.pos b <? 2 * r) eqn:E2; [apply Z.ltb_lt in E2; nia|].
  apply Z.ltb_ge in E2. destruct (Z.even d); nia.
Qed.

Lemma format_2f_two_decimals (x : Q) : two_decimals x (Py.format_2f x).
Proof.
  unfold two_decimals, Py.format_2f.
  destruct (round_half_even_nearest (Z.abs (Qnum x) * 100) (Qden x) ltac:(lia))
    as [Hn Hnear].
  set (n := Py.round_half_even (Z.abs (Qnum x) * 100) (Qden x)) in *.
  destruct (two_digits_value (n mod 100) ltac:(apply Z.mod_pos_bound; lia))
    as (c1 & c2 & Htwo & Hc1 & Hc2).
  exists (Py.str (n / 100)), c1, c2, (n / 100), (n mod 100 / 10), (n mod 100 mod 10).
  split; [by rewrite Htwo|]. split.
  { apply digits_value_str. apply Z.div_pos; lia. }
  split; [done|]. split; [done|].
  replace (100 * (n / 100) + 10 * (n mod 100 / 10) + n mod 100 mod 10) with n.
  - destruct x as [num den]. unfold Qle, Qabs, Qminus, Qplus, Qopp. simpl in *.
    rewrite Pos2Z.inj_mul. lia.
  - pose proof (Z.div_mod n 100 ltac:(lia)).
    pose proof (Z.div_mod (n mod 100) 10 ltac:(lia)). lia.
Qed.

Lemma zip3_lookup {A B C} (a : list A) (b : list B) (c : list C) (i : nat) (x : A) (y : B) (z : C) :
  zip3 a b c !! i = Some (x, y, z) <->
  a !! i = Some x /\ b !! i = Some y /\ c !! i = Some z.
Proof.
  revert b c i. induction a as [|x0 a IH]; intros [|y0 b] [|z0 c] [|i]; simpl;
    try (split; [done | by intros (? & ? & ?)]).
  - split; [by intros [= -> -> ->] | by intros ([= ->] & [= ->] & [= ->])].
  - apply IH.
Qed.

Lemma detections_lookup (results : Boxes) (box : Box) (c k : Q) :
  (box, c, k) ∈ detections results <->
  exists boxes i,
    xyxy results = Some boxes /\ boxes !! i = Some box /\
    conf results !! i = Some c /\ cls results !! i = Some k.
Proof.
  unfold detections. destruct (xyxy results) as [boxes|].
  - rewrite list_elem_of_lookup. split.
    + intros [i Hi]. apply zip3_lookup in Hi. by exists boxes, i.
    + intros (boxes' & i & [= <-] & Hi). exists i. by apply zip3_lookup.
  - split; [by intros ?%elem_of_nil | by intros (? & ? & ? & _)].
Qed.

Lemma int_truncation (x : Q) : truncation x (Py.int x).
Proof.
  destruct (int_truncates x) as [Hpos Hneg]. split; intros H.
  - destruct (Hpos H) as (? & ? & ?). done.
  - destruct (Hneg H) as (? & ? & ?). done.
Qed.

Section Properties.

Variable classes : gmap Z string.
Variables input_dir output_dir : string.

(** *** The drawing block *)

Lemma draw_detections_for_each (results : Boxes) :
  draw_detections classes results = for_each (detections results) (draw_detection classes).
Proof. unfold draw_detections, detections. by destruct (xyxy results). Qed.

Lemma for_each_draw_detection (ds : list (Box * Q * Q)) (f : Frame) :
  for_each ds (draw_detection classes) f =
  (draw_outcome classes ds, mkFrame (raster f) (drawn f ++ calls_drawn classes ds)%list).
Proof.
  revert f. induction ds as [|[[[[[x1 y1] x2] y2] c] k] ds IH]; intros f; simpl.
  - rewrite app_nil_r. by destruct f.
  - st_unfold. unfold Cv2.rectangle, Cv2.putText, draw, getitem. simpl.
    destruct (classes !! Py.int k) as [name|] eqn:Hk; simpl.
    + rewrite IH. simpl. by rewrite <- !app_assoc.
    + done.
Qed.

Lemma annotate_summary (model : Detector) (f : Frame) :
  annotate classes model f =
  (draw_outcome classes (detections (model f)),
   mkFrame (raster f) (drawn f ++ calls_drawn classes (detections (model f)))%list).
Proof.
  unfold annotate. by rewrite draw_detections_for_each, for_each_draw_detection.
Qed.

Lemma draw_outcome_not_out_of_fuel (ds : list (Box * Q * Q)) :
  draw_outcome classes ds <> OutOfFuel.
Proof.
  induction ds as [|[[b c] k] ds IH]; simpl; [done|].
  by destruct (classes !! Py.int k).
Qed.

Lemma draw_outcome_ok (ds : list (Box * Q * Q)) :
  draw_outcome classes ds = Ok tt <-> Forall (mapped classes) ds.
Proof.
  induction ds as [|[[b c] k] ds IH]; simpl.
  - split; [constructor | done].
  - destruct (classes !! Py.int k) as [name|] eqn:Hk.
    + rewrite IH. split.
      * intros H. constructor; [|done]. unfold mapped. simpl. by rewrite Hk.
      * by inversion 1.
    + split; [done|]. inversion 1 as [|? ? Hm]; subst.
      unfold mapped in Hm. simpl in Hm. rewrite Hk in Hm. by destruct Hm.
Qed.

Lemma draw_outcome_raise (ds : list (Box * Q * Q)) (e : exn) :
  draw_outcome classes ds = Raise e ->
  exists k, e = KeyError k /\ classes !! k = None /\
            exists b c q, (b, c, q) ∈ ds /\ Py.int q = k.
Proof.
  induction ds as [|[[b c] q] ds IH]; simpl; [done|].
  destruct (classes !! Py.int q) as [name|] eqn:Hk.
  - intros H. destruct (IH H) as (k & ? & ? & b' & c' & q' & Hin & ?).
    exists k. repeat split; try done. exists b', c', q'. split; [|done].
    by apply list_elem_of_further.
  - intros [= <-]. exists (Py.int q). repeat split; try done.
    exists b, c, q. split; [|done]. apply list_elem_of_here.
Qed.

Lemma draw_outcome_unmapped (ds : list (Box * Q * Q)) :
  ~ Forall (mapped classes) ds ->
  exists k, classes !! k = None /\ draw_outcome classes ds = Raise (KeyError k).
Proof.
  intros Hn. destruct (draw_outcome classes ds) as [[]|e|] eqn:Ho.
  - by apply draw_outcome_ok in Ho.
  - destruct (draw_outcome_raise _ _ Ho) as (k & -> & Hk & _). by exists k.
  - by apply draw_outcome_not_out_of_fuel in Ho.
Qed.


(** *** The frame loop *)

Lemma progress_lines_S (frames_total first : Z) (n : nat) :
  progress_lines frames_total first (S n) =
  ("Frames processed " +:+ Py.str first +:+ "/" +:+ Py.str frames_total)
    :: progress_lines frames_total (first + 1) n.
Proof.
  unfold progress_lines. simpl. rewrite Z.add_0_r. f_equal.
  rewrite <- seq_shift, map_map. apply map_ext. intros i.
  by replace (first + Z.of_nat (S i)) with (first + 1 + Z.of_nat i) by lia.
Qed.

Lemma advance_0 (c : Capture) : advance c 0 = c.
Proof. destruct c. unfold advance. simpl. by rewrite Nat.add_0_r. Qed.

Lemma read_loop_summary (model : Detector) (cap out : nat) (frames_total : Z)
    (o : Writer) (rate : Q) (size : Z * Z) (fs : list Frame) :
  o_isOpened o = true ->
  forall (fuel : nat) (w : World) (k : Z) (pre : list Frame) (c : Capture),
    (length fs < fuel)%nat ->
    captures w !! cap = Some c ->
    c_isOpened c = true ->
    c_pending c = fs ->
    writers w !! out = Some o ->
    files w !! o_path o = Some (sink_file rate size pre) ->
    read_loop classes fuel cap out model frames_total k w =
    (loop_outcome classes model fs,
     mkWorld
       (<[o_path o := sink_file rate size (pre ++ written_frames classes model fs)%list]> (files w))
       (stdout w ++ progress_lines frames_total (k + 1)
                      (length (written_frames classes model fs)))%list
       (<[cap := advance c (frames_read classes model fs)]> (captures w))
       (writers w)).
Proof.
  intros Ho. induction fs as [|f fs' IH]; intros fuel w k pre c Hfuel Hc Hop Hpend Hw Hf.
  - destruct fuel as [|fuel]; [simpl in Hfuel; lia|]. simpl.
    st_unfold. unfold cap_read, the_capture. rewrite Hc. simpl. rewrite Hop, Hpend.
    rewrite !app_nil_r, advance_0, insert_id, list_insert_id by done.
    by rewrite world_eta.
  - destruct fuel as [|fuel]; [simpl in Hfuel; lia|]. simpl in Hfuel. simpl.
    st_unfold. unfold cap_read, the_capture. rewrite Hc. simpl. rewrite Hop, Hpend.
    unfold in_place. fold (annotate classes model f).
    destruct (annotate classes model f) as [[[]|e|] f'] eqn:Ha; simpl.
    + unfold out_write. simpl. rewrite Hw, Ho. simpl.
      set (c1 := mkCapture _ _ _ _ _ _ fs' _).
      erewrite (IH fuel _ (k + 1) (pre ++ [f'])%list c1); cycle 1.
      * lia.
      * simpl. apply list_lookup_insert_eq. by eapply lookup_lt_Some.
      * done.
      * done.
      * done.
      * simpl. rewrite lookup_alter_eq, Hf. simpl. unfold sink_file. by simpl.
      * simpl. f_equal. f_equal.
        -- rewrite insert_alter_eq. by rewrite <- app_assoc.
        -- rewrite progress_lines_S. by rewrite <- app_assoc.
        -- rewrite list_insert_insert_eq. f_equal. unfold advance, c1. simpl.
           rewrite Hpend, Hop. simpl. f_equal. lia.
    + rewrite app_nil_r, app_nil_r, insert_id by done. f_equal.
      unfold advance, set_capture. rewrite Hpend, Hop. simpl. rewrite drop_0.
      do 3 f_equal. lia.
    + rewrite app_nil_r, app_nil_r, insert_id by done. f_equal.
      unfold advance, set_capture. rewrite Hpend, Hop. simpl. rewrite drop_0.
      do 3 f_equal. lia.
Qed.

(** *** [process_video] in closed form *)

Lemma lookup_snoc_new {A} (l : list A) (x : A) : (l ++ [x])%list !! length l = Some x.
Proof. by apply list_lookup_middle. Qed.

Lemma insert_snoc_new {A} (l : list A) (x y : A) :
  <[length l := y]> (l ++ [x])%list = (l ++ [y])%list.
Proof.
  rewrite insert_app_r_alt by lia. by rewrite Nat.sub_diag.
Qed.

Lemma process_video_fuel_not_opened (fuel : nat) (model : Detector)
    (video_path filename : string) (w : World) :
  (forall v, files w !! video_path <> Some (Playable v)) ->
  process_video_fuel classes output_dir fuel video_path filename model w =
  (Ok tt,
   mkWorld (files w)
           (stdout w ++ ["Не удалось открыть видео " +:+ video_path])%list
           (captures w ++ [closed_capture video_path])%list
           (writers w)).
Proof.
  intros Hno. unfold process_video_fuel. st_unfold.
  unfold VideoCapture, cap_isOpened, the_capture. simpl.
  assert (match files w !! video_path with
          | Some (Playable v) =>
              mkCapture video_path true (fps v) (frame_width v) (frame_height v)
                        (frame_count v) (frames v) 0
          | _ => closed_capture video_path
          end = closed_capture video_path) as ->.
  { destruct (files w !! video_path) as [[v|]|] eqn:E; try done. by destruct (Hno v). }
  by rewrite lookup_snoc_new.
Qed.

Lemma process_video_not_opened (model : Detector) (video_path filename : string) (w : World) :
  (forall v, files w !! video_path <> Some (Playable v)) ->
  process_video classes output_dir video_path filename model w =
  (Ok tt,
   mkWorld (files w)
           (stdout w ++ ["Не удалось открыть видео " +:+ video_path])%list
           (captures w ++ [closed_capture video_path])%list
           (writers w)).
Proof. apply process_video_fuel_not_opened. Qed.

#[local] Opaque read_loop.

Lemma process_video_fuel_opened (fuel : nat) (model : Detector)
    (video_path filename : string) (w : World) (v : Video) :
  (length (frames v) < fuel)%nat ->
  files w !! video_path = Some (Playable v) ->
  let c0 := mkCapture video_path true (fps v) (frame_width v) (frame_height v)
                      (frame_count v) (frames v) 0 in
  let out_path := output_video_path output_dir filename in
  let fourcc := Cv2.VideoWriter_fourcc "m" "p" "4" "v" in
  let size := (Py.int (frame_width v), Py.int (frame_height v)) in
  let written := written_frames classes model (frames v) in
  let lines := progress_lines (Py.int (frame_count v)) 0 (length written) in
  let n := frames_read classes model (frames v) in
  process_video_fuel classes output_dir fuel video_path filename model w =
  match loop_outcome classes model (frames v) with
  | Ok _ =>
      (Ok tt,
       mkWorld (<[out_path := sink_file (fps v) size written]> (files w))
               (stdout w ++ lines ++ ["Сохранён обработанный файл: " +:+ out_path])%list
               (captures w ++
                  [mkCapture video_path false (fps v) (frame_width v) (frame_height v)
                             (frame_count v) (drop n (frames v)) n])%list
               (writers w ++ [mkWriter out_path fourcc false])%list)
  | other =>
      (other,
       mkWorld (<[out_path := sink_file (fps v) size written]> (files w))
               (stdout w ++ lines)%list
               (captures w ++ [advance c0 n])%list
               (writers w ++ [mkWriter out_path fourcc true])%list)
  end.
Proof.
  intros Hfuel Hv c0 out_path fourcc size written lines n.
  unfold output_video_path in out_path.
  unfold process_video_fuel. st_unfold.
  unfold VideoCapture, cap_isOpened, the_capture. simpl. rewrite Hv.
  rewrite lookup_snoc_new. simpl.
  unfold get_cap_info, cap_get, the_capture. st_unfold. simpl.
  rewrite lookup_snoc_new. simpl.
  unfold VideoWriter. simpl.
  fold out_path fourcc c0 size.
  erewrite (read_loop_summary model (length (captures w)) (length (writers w))
              (Py.int (frame_count v)) (mkWriter out_path fourcc true) (fps v) size
              (frames v) eq_refl fuel _ (-1) [] c0); cycle 1.
  - lia.
  - simpl. apply lookup_snoc_new.
  - done.
  - done.
  - simpl. apply lookup_snoc_new.
  - simpl. by rewrite lookup_insert_eq.
  - simpl. fold written n lines. rewrite insert_insert_eq, insert_snoc_new.
    destruct (loop_outcome classes model (frames v)) as [[]|e|]; simpl; try done.
    unfold cap_release, out_release, print, the_capture, set_capture, set_writer. simpl.
    rewrite lookup_snoc_new. simpl. rewrite lookup_snoc_new. simpl.
    rewrite !insert_snoc_new. by rewrite <- app_assoc.
Qed.

Lemma process_video_opened (model : Detector) (video_path filename : string)
    (w : World) (v : Video) :
  files w !! video_path = Some (Playable v) ->
  let c0 := mkCapture video_path true (fps v) (frame_width v) (frame_height v)
                      (frame_count v) (frames v) 0 in
  let out_path := output_video_path output_dir filename in
  let fourcc := Cv2.VideoWriter_fourcc "m" "p" "4" "v" in
  let size := (Py.int (frame_width v), Py.int (frame_height v)) in
  let written := written_frames classes model (frames v) in
  let lines := progress_lines (Py.int (frame_count v)) 0 (length written) in
  let n := frames_read classes model (frames v) in
  process_video classes output_dir video_path filename model w =
  match loop_outcome classes model (frames v) with
  | Ok _ =>
      (Ok tt,
       mkWorld (<[out_path := sink_file (fps v) size written]> (files w))
               (stdout w ++ lines ++ ["Сохранён обработанный файл: " +:+ out_path])%list
               (captures w ++
                  [mkCapture video_path false (fps v) (frame_width v) (frame_height v)
                             (frame_count v) (drop n (frames v)) n])%list
               (writers w ++ [mkWriter out_path fourcc false])%list)
  | other =>
      (other,
       mkWorld (<[out_path := sink_file (fps v) size written]> (files w))
               (stdout w ++ lines)%list
               (captures w ++ [advance c0 n])%list
               (writers w ++ [mkWriter out_path fourcc true])%list)
  end.
Proof.
  intros Hv. unfold process_video, frames_at. rewrite Hv.
  apply process_video_fuel_opened; [lia | done].
Qed.

(** More fuel than the video has frames changes nothing. *)
Lemma process_video_fuel_enough (fuel : nat) (model : Detector)
    (video_path filename : string) (w : World) :
  (frames_at w video_path < fuel)%nat ->
  process_video_fuel classes output_dir fuel video_path filename model w =
  process_video classes output_dir video_path filename model w.
Proof.
  unfold frames_at. intros Hfuel.
  destruct (files w !! video_path) as [[v|]|] eqn:E.
  - by rewrite (process_video_opened _ _ _ _ v E),
               (process_video_fuel_opened fuel _ _ _ _ v Hfuel E).
  - rewrite process_video_not_opened, process_video_fuel_not_opened; congruence.
  - rewrite process_video_not_opened, process_video_fuel_not_opened; congruence.
Qed.

#[local] Transparent read_loop.

(** *** The loop summaries *)

Lemma annotate_outcome (model : Detector) (f : Frame) :
  fst (annotate classes model f) = draw_outcome classes (detections (model f)).
Proof. by rewrite annotate_summary. Qed.

Lemma annotate_raster (model : Detector) (f : Frame) :
  raster (snd (annotate classes model f)) = raster f.
Proof. by rewrite annotate_summary. Qed.

Lemma annotate_no_detection (model : Detector) (f : Frame) :
  detections (model f) = [] -> annotate classes model f = (Ok tt, f).
Proof.
  intros H. rewrite annotate_summary, H. simpl. rewrite app_nil_r. by destruct f.
Qed.

Lemma loop_outcome_not_out_of_fuel (model : Detector) (fs : list Frame) :
  loop_outcome classes model fs <> OutOfFuel.
Proof.
  induction fs as [|f fs IH]; simpl; [done|].
  pose proof (annotate_outcome model f) as Ho.
  destruct (annotate classes model f) as [[[]|e|] f']; simpl in *; try done.
  symmetry in Ho. by apply draw_outcome_not_out_of_fuel in Ho.
Qed.

Lemma loop_outcome_ok (model : Detector) (fs : list Frame) :
  loop_outcome classes model fs = Ok tt <-> Forall (all_mapped classes model) fs.
Proof.
  induction fs as [|f fs IH]; simpl.
  - split; [constructor | done].
  - pose proof (annotate_outcome model f) as Ho.
    destruct (annotate classes model f) as [[[]|e|] f']; simpl in Ho; symmetry in Ho.
    + rewrite IH. apply draw_outcome_ok in Ho. split.
      * intros H. by constructor.
      * by inversion 1.
    + split; [done|]. inversion 1 as [|? ? Hm]; subst.
      apply draw_outcome_ok in Hm. congruence.
    + by apply draw_outcome_not_out_of_fuel in Ho.
Qed.

Lemma loop_outcome_raise (model : Detector) (fs : list Frame) :
  ~ Forall (all_mapped classes model) fs ->
  exists k, classes !! k = None /\ loop_outcome classes model fs = Raise (KeyError k).
Proof.
  induction fs as [|f fs IH]; intros Hn; simpl.
  - destruct Hn. constructor.
  - pose proof (annotate_outcome model f) as Ho.
    destruct (annotate classes model f) as [[[]|e|] f']; simpl in Ho; symmetry in Ho.
    + apply IH. intros Hall. apply Hn. constructor; [|done].
      by apply draw_outcome_ok.
    + destruct (draw_outcome_raise _ _ Ho) as (k & -> & Hk & _). by exists k.
    + by apply draw_outcome_not_out_of_fuel in Ho.
Qed.

Lemma written_frames_ok (model : Detector) (fs : list Frame) :
  loop_outcome classes model fs = Ok tt ->
  written_frames classes model fs = map (fun f => snd (annotate classes model f)) fs
  /\ frames_read classes model fs = length fs.
Proof.
  induction fs as [|f fs IH]; simpl; [done|].
  destruct (annotate classes model f) as [[[]|e|] f']; simpl; try done.
  intros H. destruct (IH H) as [-> ->]. done.
Qed.

Lemma written_frames_prefix (model : Detector) (fs : list Frame) :
  written_frames classes model fs =
  map (fun f => snd (annotate classes model f))
      (take (length (written_frames classes model fs)) fs).
Proof.
  induction fs as [|f fs IH]; simpl; [done|].
  destruct (annotate classes model f) as [[[]|e|] f'] eqn:E; simpl; try done.
  rewrite E. simpl. by rewrite <- IH.
Qed.

Lemma frames_read_written (model : Detector) (fs : list Frame) :
  frames_read classes model fs =
  match loop_outcome classes model fs with
  | Ok _ => length (written_frames classes model fs)
  | _ => S (length (written_frames classes model fs))
  end.
Proof.
  induction fs as [|f fs IH]; simpl; [done|].
  destruct (annotate classes model f) as [[[]|e|] f']; simpl; try done.
  rewrite IH. by destruct (loop_outcome classes model fs).
Qed.

Lemma frames_read_le (model : Detector) (fs : list Frame) :
  (frames_read classes model fs <= length fs)%nat.
Proof.
  induction fs as [|f fs IH]; simpl; [done|].
  destruct (annotate classes model f) as [[[]|e|] f']; simpl; lia.
Qed.

Lemma written_frames_unannotated (model : Detector) (fs : list Frame) (i : nat) (f : Frame) :
  fs !! i = Some f ->
  (i < frames_read classes model fs)%nat ->
  detections (model f) = [] ->
  written_frames classes model fs !! i = Some f.
Proof.
  revert i. induction fs as [|g fs IH]; intros i Hi Hlt Hd; [done|].
  simpl in *. destruct i as [|i]; simpl in *.
  - injection Hi as ->. by rewrite annotate_no_detection.
  - destruct (annotate classes model g) as [[[]|e|] g']; simpl; try lia.
    apply IH; [done | lia | done].
Qed.

(** *** The drawing calls *)

Lemma max_lower_bound (a : Z) : 0 <= Py.max a 0.
Proof. unfold Py.max. destruct (a <? 0) eqn:E; lia. Qed.

Lemma max_is_max (a b : Z) : Py.max a b = Z.max a b.
Proof. unfold Py.max. destruct (a <? b) eqn:E; lia. Qed.

Lemma calls_drawn_label (ds : list (Box * Q * Q)) (text : string) (org : Point)
    (font : Font) (scale : Q) (color : Color) (thickness : Z) :
  PutText text org font scale color thickness ∈ calls_drawn classes ds ->
  exists x1 y1 x2 y2 conf_ cls_id name,
    (x1, y1, x2, y2, conf_, cls_id) ∈ ds /\
    classes !! Py.int cls_id = Some name /\
    text = name +:+ " " +:+ Py.format_2f conf_ /\
    org = (Py.int x1, Py.max (Py.int y1 - 10) 0).
Proof.
  induction ds as [|[[[[[x1 y1] x2] y2] c] k] ds IH]; simpl.
  - by intros ?%elem_of_nil.
  - intros [?|Hin]%elem_of_cons; [done|].
    destruct (classes !! Py.int k) as [name|] eqn:Hk; [|by apply elem_of_nil in Hin].
    apply elem_of_cons in Hin as [Heq|Hin].
    + injection Heq as -> -> _ _ _ _. exists x1, y1, x2, y2, c, k, name.
      split; [apply list_elem_of_here | done].
    + destruct (IH Hin) as (a1 & b1 & a2 & b2 & c' & k' & name' & ? & ?).
      exists a1, b1, a2, b2, c', k', name'. split; [by apply list_elem_of_further | done].
Qed.

Lemma calls_drawn_rectangle (ds : list (Box * Q * Q)) (pt1 pt2 : Point)
    (color : Color) (thickness : Z) :
  Rectangle pt1 pt2 color thickness ∈ calls_drawn classes ds ->
  exists x1 y1 x2 y2 conf_ cls_id,
    (x1, y1, x2, y2, conf_, cls_id) ∈ ds /\
    pt1 = (Py.int x1, Py.int y1) /\ pt2 = (Py.int x2, Py.int y2).
Proof.
  induction ds as [|[[[[[x1 y1] x2] y2] c] k] ds IH]; simpl.
  - by intros ?%elem_of_nil.
  - intros [Heq|Hin]%elem_of_cons.
    + injection Heq as -> -> _ _. exists x1, y1, x2, y2, c, k.
      split; [apply list_elem_of_here | done].
    + destruct (classes !! Py.int k) as [name|] eqn:Hk; [|by apply elem_of_nil in Hin].
      apply elem_of_cons in Hin as [?|Hin]; [done|].
      destruct (IH Hin) as (a1 & b1 & a2 & b2 & c' & k' & ? & ?).
      exists a1, b1, a2, b2, c', k'. split; [by apply list_elem_of_further | done].
Qed.

Lemma calls_drawn_complete (ds : list (Box * Q * Q)) (x1 y1 x2 y2 conf_ cls_id : Q) :
  draw_outcome classes ds = Ok tt ->
  (x1, y1, x2, y2, conf_, cls_id) ∈ ds ->
  Rectangle (Py.int x1, Py.int y1) (Py.int x2, Py.int y2) (0, 255, 0) 2
    ∈ calls_drawn classes ds /\
  exists name, classes !! Py.int cls_id = Some name /\
    PutText (name +:+ " " +:+ Py.format_2f conf_)
            (Py.int x1, Py.max (Py.int y1 - 10) 0)
            FONT_HERSHEY_SIMPLEX (1 # 2) (0, 255, 255) 2
      ∈ calls_drawn classes ds.
Proof.
  induction ds as [|[[[[[a1 b1] a2] b2] c] k] ds IH]; simpl.
  - by intros _ ?%elem_of_nil.
  - destruct (classes !! Py.int k) as [name|] eqn:Hk; [|done].
    intros Hok [Heq|Hin]%elem_of_cons.
    + injection Heq as -> -> -> -> -> ->. split; [apply list_elem_of_here|].
      exists name. split; [done|]. apply list_elem_of_further, list_elem_of_here.
    + destruct (IH Hok Hin) as [Hr (name' & Hn & Hl)]. split.
      * by do 2 apply list_elem_of_further.
      * exists name'. split; [done|]. by do 2 apply list_elem_of_further.
Qed.

(** *** The batch driver *)

Lemma main_cons (filename : string) (rest : list string) (model : Detector) (w : World) :
  main classes input_dir output_dir (filename :: rest) model w =
  if is_video filename then
    match process_video classes output_dir (OsPath.join input_dir filename)
                        filename model w with
    | (Ok _, w1) => main classes input_dir output_dir rest model w1
    | (Raise e, w1) => (Raise e, w1)
    | (OutOfFuel, w1) => (OutOfFuel, w1)
    end
  else main classes input_dir output_dir rest model w.
Proof.
  unfold main. simpl. st_unfold. destruct (is_video filename); [|done].
  by destruct (process_video _ _ _ _ _ _) as [[[]|e|] w1].
Qed.


Lemma process_video_not_out_of_fuel (model : Detector) (video_path filename : string) (w : World) :
  fst (process_video classes output_dir video_path filename model w) <> OutOfFuel.
Proof.
  destruct (files w !! video_path) as [[v|]|] eqn:E.
  - rewrite (process_video_opened _ _ _ _ v E).
    pose proof (loop_outcome_not_out_of_fuel model (frames v)).
    by destruct (loop_outcome classes model (frames v)).
  - by rewrite process_video_not_opened by congruence.
  - by rewrite process_video_not_opened by congruence.
Qed.

Lemma main_filter (listing : list string) (model : Detector) (w : World) :
  main classes input_dir output_dir listing model w =
  main classes input_dir output_dir (List.filter is_video listing) model w.
Proof.
  revert w. induction listing as [|f rest IH]; intros w; [done|].
  rewrite main_cons. simpl. destruct (is_video f) eqn:Hf; [|apply IH].
  rewrite main_cons, Hf.
  by destruct (process_video _ _ _ _ _ _) as [[[]|e|] w1].
Qed.


Lemma annotated_rasters (model : Detector) (fs : list Frame) :
  map raster (map (fun f => snd (annotate classes model f)) fs) = map raster fs.
Proof.
  induction fs as [|f fs IH]; simpl; [done|]. by rewrite annotate_raster, IH.
Qed.

Lemma calls_drawn_reached (ds : list (Box * Q * Q)) (i : nat)
    (x1 y1 x2 y2 conf_ cls_id : Q) :
  ds !! i = Some (x1, y1, x2, y2, conf_, cls_id) ->
  Forall (mapped classes) (take i ds) ->
  Rectangle (Py.int x1, Py.int y1) (Py.int x2, Py.int y2) (0, 255, 0) 2
    ∈ calls_drawn classes ds /\
  forall name,
    classes !! Py.int cls_id = Some name ->
    PutText (name +:+ " " +:+ Py.format_2f conf_)
            (Py.int x1, Z.max (Py.int y1 - 10) 0)
            FONT_HERSHEY_SIMPLEX (1 # 2) (0, 255, 255) 2
      ∈ calls_drawn classes ds.
Proof.
  revert i. induction ds as [|[[[[[a1 b1] a2] b2] c] k] ds IH]; intros [|i] Hi Hm;
    try done.
  - injection Hi as -> -> -> -> -> ->. simpl. split; [apply list_elem_of_here|].
    intros name Hk. rewrite Hk, <- max_is_max.
    apply list_elem_of_further, list_elem_of_here.
  - simpl in Hi, Hm. inversion Hm as [|? ? [name' Hn] Hm']; subst. simpl in Hn.
    simpl. rewrite Hn. destruct (IH i Hi Hm') as [Hr Hl]. split.
    + by do 2 apply list_elem_of_further.
    + intros name Hk. do 2 apply list_elem_of_further. by apply Hl.
Qed.

Lemma calls_drawn_not_reached (ds : list (Box * Q * Q)) (i : nat) (d : Box * Q * Q) :
  ds !! i = Some d ->
  classes !! Py.int (snd d) = None ->
  (length (calls_drawn classes ds) <= 2 * i + 1)%nat.
Proof.
  revert i. induction ds as [|[[[[[a1 b1] a2] b2] c] k] ds IH]; intros [|i] Hi Hk;
    try done.
  - injection Hi as <-. simpl in *. by rewrite Hk.
  - simpl in *. destruct (classes !! Py.int k); simpl; [|lia].
    specialize (IH i Hi Hk). lia.
Qed.

(** *** The claims *)

(** C1 (amended).  For every video whose source opens, the frames in the
    output sink are frames read from the source (each with the overlay
    drawn on it, its pixels as decoded), each at most once and in read
    order.  When [process_video] returns normally, every frame of the
    source has been read and written: the number of frames written equals
    the number of frames read.  When a failed lookup ends it, the frame
    being annotated has been read and is not written. *)
Theorem C1_frames_written_once_in_order (model : Detector) (video_path filename : string)
    (w w' : World) (r : outcome unit) (v : Video) :
  files w !! video_path = Some (Playable v) ->
  process_video classes output_dir video_path filename model w = (r, w') ->
  exists (c : Capture) (written : list Frame),
    captures w' = (captures w ++ [c])%list /\
    frames_of w' (output_video_path output_dir filename) = Some written /\
    written = map (fun f => snd (annotate classes model f))
                  (take (length written) (frames v)) /\
    map raster written = take (length written) (map raster (frames v)) /\
    c_pending c = drop (c_delivered c) (frames v) /\
    (r = Ok tt ->
     c_delivered c = length (frames v) /\ length written = c_delivered c) /\
    (r <> Ok tt ->
     c_delivered c = S (length written)).
Proof.
  intros Hv Hrun. rewrite (process_video_opened _ _ _ _ v Hv) in Hrun.
  pose proof (written_frames_prefix model (frames v)) as Hpre.
  pose proof (frames_read_written model (frames v)) as Hn.
  assert (map raster (written_frames classes model (frames v)) =
          take (length (written_frames classes model (frames v)))
               (map raster (frames v))) as Hras.
  { rewrite Hpre at 1. rewrite annotated_rasters. apply (fmap_take raster). }
  destruct (loop_outcome classes model (frames v)) as [[]|e|] eqn:Ho;
    injection Hrun as <- <-;
    eexists _, (written_frames classes model (frames v)); simpl;
    (split; [done|]);
    (split; [unfold frames_of; simpl; by rewrite lookup_insert_eq|]);
    (split; [done|]); (split; [done|]); (split; [done|]); split; try done.
  - intros _. destruct (written_frames_ok _ _ Ho) as [Hw Hlen].
    split; [done|]. by rewrite Hn.
Qed.

(** C2.  If the source cannot be opened, [process_video] prints the
    failure message with the video path and returns; the files and the
    writer table are as before (no output file, no sink); the batch driver
    goes on with the rest of the listing.  Any exception raised by
    [process_video] leaves [main] as that exception: nothing else is
    caught. *)
Theorem C2_open_failure_is_skipped (model : Detector) (video_path filename : string)
    (w : World) :
  (forall v, files w !! video_path <> Some (Playable v)) ->
  exists w',
    process_video classes output_dir video_path filename model w = (Ok tt, w') /\
    stdout w' = (stdout w ++ ["Не удалось открыть видео " +:+ video_path])%list /\
    files w' = files w /\
    writers w' = writers w /\
    (forall rest,
       is_video filename = true -> video_path = OsPath.join input_dir filename ->
       main classes input_dir output_dir (filename :: rest) model w =
       main classes input_dir output_dir rest model w') /\
    (forall f rest e w1 w2,
       is_video f = true ->
       process_video classes output_dir (OsPath.join input_dir f) f model w1 = (Raise e, w2) ->
       main classes input_dir output_dir (f :: rest) model w1 = (Raise e, w2)).
Proof.
  intros Hno. eexists. split; [by apply process_video_not_opened|]. simpl.
  repeat split.
  - intros rest Hf ->. rewrite main_cons, Hf.
    by rewrite process_video_not_opened.
  - intros f rest e w1 w2 Hf Hr. by rewrite main_cons, Hf, Hr.
Qed.

(** C3.  Every label drawn by the drawing block is the text
    "{class_name} {confidence:.2f}" of one of the detections, placed at
    (x1, max(y1 - 10, 0)) for that detection's truncated top-left corner, so
    its y-coordinate is never negative; every detection that is reached
    with a class name has such a label, all of them when the block
    completes.  The confidence is written with two decimals, the
    coordinates are truncated toward zero, and the detections are the
    triples that the three sequences of the detector hold at a common
    index. *)
Theorem C3_label_text_and_position (results : Boxes) (frame : Frame) :
  exists calls,
    drawn (snd (draw_detections classes results frame)) = (drawn frame ++ calls)%list /\
    (forall text org font scale color thickness,
       PutText text org font scale color thickness ∈ calls ->
       0 <= snd org /\
       exists x1 y1 x2 y2 conf_ cls_id name,
         (x1, y1, x2, y2, conf_, cls_id) ∈ detections results /\
         classes !! Py.int cls_id = Some name /\
         text = name +:+ " " +:+ Py.format_2f conf_ /\
         org = (Py.int x1, Z.max (Py.int y1 - 10) 0)) /\
    (fst (draw_detections classes results frame) = Ok tt ->
     forall x1 y1 x2 y2 conf_ cls_id,
       (x1, y1, x2, y2, conf_, cls_id) ∈ detections results ->
       exists name,
         classes !! Py.int cls_id = Some name /\
         PutText (name +:+ " " +:+ Py.format_2f conf_)
                 (Py.int x1, Z.max (Py.int y1 - 10) 0)
                 FONT_HERSHEY_SIMPLEX (1 # 2) (0, 255, 255) 2 ∈ calls) /\
    (forall i x1 y1 x2 y2 conf_ cls_id name,
       detections results !! i = Some (x1, y1, x2, y2, conf_, cls_id) ->
       Forall (mapped classes) (take i (detections results)) ->
       classes !! Py.int cls_id = Some name ->
       PutText (name +:+ " " +:+ Py.format_2f conf_)
               (Py.int x1, Z.max (Py.int y1 - 10) 0)
               FONT_HERSHEY_SIMPLEX (1 # 2) (0, 255, 255) 2 ∈ calls) /\
    (forall conf_, two_decimals conf_ (Py.format_2f conf_)) /\
    (forall x, truncation x (Py.int x)) /\
    (forall box conf_ cls_id,
       (box, conf_, cls_id) ∈ detections results <->
       exists boxes i,
         xyxy results = Some boxes /\ boxes !! i = Some box /\
         conf results !! i = Some conf_ /\ cls results !! i = Some cls_id).
Proof.
  exists (calls_drawn classes (detections results)).
  rewrite draw_detections_for_each, for_each_draw_detection. simpl.
  split; [done|]. split; [|split; [|split; [|split; [|split]]]].
  - intros text org font scale color thickness Hin.
    destruct (calls_drawn_label _ _ _ _ _ _ _ Hin)
      as (x1 & y1 & x2 & y2 & c & k & name & Hd & Hk & -> & ->).
    split; [apply max_lower_bound|].
    exists x1, y1, x2, y2, c, k, name. by rewrite <- max_is_max.
  - intros Hok x1 y1 x2 y2 c k Hd.
    destruct (calls_drawn_complete _ _ _ _ _ _ _ Hok Hd) as [_ (name & Hk & Hl)].
    exists name. by rewrite <- max_is_max.
  - intros i x1 y1 x2 y2 c k name Hi Hm Hk.
    destruct (calls_drawn_reached _ _ _ _ _ _ _ _ Hi Hm) as [_ Hl]. by apply Hl.
  - apply format_2f_two_decimals.
  - apply int_truncation.
  - apply detections_lookup.
Qed.

(** C4.  A frame that was read and on which the detector returns no
    detection is in the output sink, at its position, equal to the frame
    read: same pixels, nothing drawn on it. *)
Theorem C4_frame_without_detections_unchanged (model : Detector)
    (video_path filename : string) (w w' : World) (r : outcome unit) (v : Video)
    (c : Capture) (i : nat) (frame : Frame) :
  files w !! video_path = Some (Playable v) ->
  process_video classes output_dir video_path filename model w = (r, w') ->
  captures w' !! length (captures w) = Some c ->
  frames v !! i = Some frame ->
  (i < c_delivered c)%nat ->
  detections (model frame) = [] ->
  exists written,
    frames_of w' (output_video_path output_dir filename) = Some written /\
    written !! i = Some frame.
Proof.
  intros Hv Hrun Hc Hi Hlt Hd. rewrite (process_video_opened _ _ _ _ v Hv) in Hrun.
  exists (written_frames classes model (frames v)).
  assert (c_delivered c = frames_read classes model (frames v)) as Hn.
  { destruct (loop_outcome classes model (frames v)) as [[]|e|];
      injection Hrun as <- <-; simpl in Hc; rewrite lookup_snoc_new in Hc;
      by injection Hc as <-. }
  split.
  - unfold frames_of.
    destruct (loop_outcome classes model (frames v)) as [[]|e|];
      injection Hrun as <- <-; simpl; by rewrite lookup_insert_eq.
  - apply written_frames_unannotated; [done | lia | done].
Qed.

(** C5.  When an input file is processed successfully, the file system
    afterwards is the one before with one file written: the video at the
    output directory joined with the stem of the file name followed by
    "_processed" and ".mp4", whatever the extension was. *)
Theorem C5_one_output_file (model : Detector) (video_path filename stem ext : string)
    (w w' : World) (v : Video) :
  files w !! video_path = Some (Playable v) ->
  OsPath.splitext filename = (stem, ext) ->
  process_video classes output_dir video_path filename model w = (Ok tt, w') ->
  let out_path := OsPath.join output_dir (stem +:+ "_processed" +:+ ".mp4") in
  (exists video, files w' = <[out_path := Playable video]> (files w)) /\
  dom (files w') = {[out_path]} ∪ dom (files w) /\
  (forall p, p <> out_path -> files w' !! p = files w !! p).
Proof.
  intros Hv Hs Hrun out_path. rewrite (process_video_opened _ _ _ _ v Hv) in Hrun.
  assert (output_video_path output_dir filename = out_path) as Hp.
  { unfold output_video_path, out_path. by rewrite Hs. }
  rewrite Hp in Hrun.
  destruct (loop_outcome classes model (frames v)) as [[]|e|]; try done.
  injection Hrun as <-. simpl. split; [by eexists|]. split.
  - by rewrite dom_insert_L.
  - intros p Hne. by rewrite lookup_insert_ne.
Qed.


(** C7.  When [process_video] returns, by exhaustion of the frames or by
    the early return, the capture object it created is not opened; if the
    source had opened, the one writer object it created is not opened
    either; if the source had failed to open, no writer object was
    created. *)
Theorem C7_handles_released (model : Detector) (video_path filename : string)
    (w w' : World) :
  process_video classes output_dir video_path filename model w = (Ok tt, w') ->
  exists c,
    captures w' = (captures w ++ [c])%list /\
    capture_released c /\
    (((exists v, files w !! video_path = Some (Playable v)) /\
      exists o, writers w' = (writers w ++ [o])%list /\ writer_released o)
     \/
     ((forall v, files w !! video_path <> Some (Playable v)) /\
      writers w' = writers w)).
Proof.
  intros Hrun. destruct (files w !! video_path) as [[v|]|] eqn:E.
  - rewrite (process_video_opened _ _ _ _ v E) in Hrun.
    destruct (loop_outcome classes model (frames v)) as [[]|e|]; try done.
    injection Hrun as <-. simpl. eexists. split; [done|]. split; [done|].
    left. split; [by exists v|]. by eexists.
  - rewrite process_video_not_opened in Hrun by congruence.
    injection Hrun as <-. simpl. eexists. split; [done|]. split; [done|].
    right. split; [congruence | done].
  - rewrite process_video_not_opened in Hrun by congruence.
    injection Hrun as <-. simpl. eexists. split; [done|]. split; [done|].
    right. split; [congruence | done].
Qed.

(** C8.  If, on some frame of a video that opens, the detector returns a
    detection whose class id is not in the label table, [process_video]
    ends with a [KeyError] on an absent key, and so does the batch driver,
    in the same world: nothing runs after the failed lookup. *)
Theorem C8_unmapped_class_id_aborts (model : Detector) (video_path filename : string)
    (w : World) (v : Video) (frame : Frame) (d : Box * Q * Q) :
  files w !! video_path = Some (Playable v) ->
  frame ∈ frames v ->
  d ∈ detections (model frame) ->
  classes !! Py.int (snd d) = None ->
  exists k w',
    classes !! k = None /\
    process_video classes output_dir video_path filename model w = (Raise (KeyError k), w') /\
    (forall rest,
       is_video filename = true -> video_path = OsPath.join input_dir filename ->
       main classes input_dir output_dir (filename :: rest) model w
       = (Raise (KeyError k), w')).
Proof.
  intros Hv Hf Hd Hk.
  assert (~ Forall (all_mapped classes model) (frames v)) as Hn.
  { intros Hall. rewrite Forall_forall in Hall. specialize (Hall _ Hf).
    unfold all_mapped in Hall. rewrite Forall_forall in Hall.
    specialize (Hall _ Hd). unfold mapped in Hall. rewrite Hk in Hall.
    by destruct Hall. }
  destruct (loop_outcome_raise model _ Hn) as (k & Hnone & Hr).
  pose proof (process_video_opened model video_path filename w v Hv) as Hrun.
  simpl in Hrun. rewrite Hr in Hrun.
  eexists k, _. split; [done|]. split; [exact Hrun|].
  intros rest Hvid ->. by rewrite main_cons, Hvid, Hrun.
Qed.

(** C9 (amended).  The drawing calls depend on the detections only, not
    on the frame.  Every rectangle drawn has as corners the coordinates of
    one of the detections, truncated toward zero and otherwise unchanged.
    A detection has its rectangle when the class ids before it on the
    frame all have a name, so every detection has when the block
    completes; a detection that comes after a class id without a name is
    not drawn.  Only the label's y-coordinate goes through [max(_, 0)].
    The detections are the triples that the three sequences of the
    detector hold at a common index. *)
Theorem C9_boxes_drawn_as_given (results : Boxes) :
  exists calls,
    (forall frame,
       drawn (snd (draw_detections classes results frame)) = (drawn frame ++ calls)%list) /\
    (forall pt1 pt2 color thickness,
       Rectangle pt1 pt2 color thickness ∈ calls ->
       exists x1 y1 x2 y2 conf_ cls_id,
         (x1, y1, x2, y2, conf_, cls_id) ∈ detections results /\
         pt1 = (Py.int x1, Py.int y1) /\ pt2 = (Py.int x2, Py.int y2)) /\
    (forall frame x1 y1 x2 y2 conf_ cls_id,
       fst (draw_detections classes results frame) = Ok tt ->
       (x1, y1, x2, y2, conf_, cls_id) ∈ detections results ->
       Rectangle (Py.int x1, Py.int y1) (Py.int x2, Py.int y2) (0, 255, 0) 2 ∈ calls) /\
    (forall text org font scale color thickness,
       PutText text org font scale color thickness ∈ calls ->
       exists x1 y1 x2 y2 conf_ cls_id,
         (x1, y1, x2, y2, conf_, cls_id) ∈ detections results /\
         org = (Py.int x1, Z.max (Py.int y1 - 10) 0)) /\
    (forall i x1 y1 x2 y2 conf_ cls_id,
       detections results !! i = Some (x1, y1, x2, y2, conf_, cls_id) ->
       Forall (mapped classes) (take i (detections results)) ->
       Rectangle (Py.int x1, Py.int y1) (Py.int x2, Py.int y2) (0, 255, 0) 2 ∈ calls) /\
    (forall i d,
       detections results !! i = Some d ->
       classes !! Py.int (snd d) = None ->
       (length calls <= 2 * i + 1)%nat) /\
    (forall x, truncation x (Py.int x)) /\
    (forall box conf_ cls_id,
       (box, conf_, cls_id) ∈ detections results <->
       exists boxes i,
         xyxy results = Some boxes /\ boxes !! i = Some box /\
         conf results !! i = Some conf_ /\ cls results !! i = Some cls_id).
Proof.
  exists (calls_drawn classes (detections results)).
  split; [|split; [|split; [|split; [|split; [|split; [|split]]]]]].
  - intros frame. by rewrite draw_detections_for_each, for_each_draw_detection.
  - intros pt1 pt2 color thickness Hin.
    destruct (calls_drawn_rectangle _ _ _ _ _ Hin)
      as (x1 & y1 & x2 & y2 & c & k & Hd & -> & ->).
    by exists x1, y1, x2, y2, c, k.
  - intros frame x1 y1 x2 y2 c k Hok Hd.
    rewrite draw_detections_for_each, for_each_draw_detection in Hok.
    by destruct (calls_drawn_complete _ _ _ _ _ _ _ Hok Hd) as [Hr _].
  - intros text org font scale color thickness Hin.
    destruct (calls_drawn_label _ _ _ _ _ _ _ Hin)
      as (x1 & y1 & x2 & y2 & c & k & name & Hd & Hk & -> & ->).
    exists x1, y1, x2, y2, c, k. by rewrite <- max_is_max.
  - intros i x1 y1 x2 y2 c k Hi Hm.
    by destruct (calls_drawn_reached _ _ _ _ _ _ _ _ Hi Hm) as [Hr _].
  - intros i d Hi Hk. by eapply calls_drawn_not_reached.
  - apply int_truncation.
  - apply detections_lookup.
Qed.

Lemma same_root_overwrites (model : Detector) (f1 f2 : string) (w : World)
    (v1 v2 : Video) :
  fst (OsPath.splitext f1) = fst (OsPath.splitext f2) ->
  is_video f1 = true ->
  is_video f2 = true ->
  files w !! OsPath.join input_dir f1 = Some (Playable v1) ->
  files w !! OsPath.join input_dir f2 = Some (Playable v2) ->
  output_video_path output_dir f1 <> OsPath.join input_dir f2 ->
  Forall (all_mapped classes model) (frames v1) ->
  Forall (all_mapped classes model) (frames v2) ->
  let out_path := OsPath.join output_dir (fst (OsPath.splitext f1) +:+ "_processed.mp4") in
  output_video_path output_dir f1 = out_path /\
  output_video_path output_dir f2 = out_path /\
  exists w1 w2 w',
    process_video classes output_dir (OsPath.join input_dir f1) f1 model w = (Ok tt, w1) /\
    frames_of w1 out_path = Some (map (fun f => snd (annotate classes model f)) (frames v1)) /\
    process_video classes output_dir (OsPath.join input_dir f2) f2 model w1 = (Ok tt, w2) /\
    frames_of w2 out_path = Some (map (fun f => snd (annotate classes model f)) (frames v2)) /\
    (forall p, p <> out_path -> files w2 !! p = files w !! p) /\
    main classes input_dir output_dir [f1; f2] model w = (Ok tt, w') /\
    files w' = files w2.
Proof.
  intros Hstem Hf1 Hf2 Hv1 Hv2 Hne Hm1 Hm2 out_path.
  assert (output_video_path output_dir f1 = out_path) as Hp1 by done.
  assert (output_video_path output_dir f2 = out_path) as Hp2.
  { unfold output_video_path, out_path. by rewrite Hstem. }
  split; [done|]. split; [done|].
  apply loop_outcome_ok in Hm1, Hm2.
  pose proof (process_video_opened model _ f1 w v1 Hv1) as Hrun1.
  simpl in Hrun1. rewrite Hm1, Hp1 in Hrun1.
  destruct (written_frames_ok _ _ Hm1) as [Hw1 _].
  destruct (written_frames_ok _ _ Hm2) as [Hw2 _].
  eexists _, _, _. split; [exact Hrun1|]. split.
  { unfold frames_of. simpl. by rewrite lookup_insert_eq, Hw1. }
  match type of Hrun1 with _ = (_, ?x) => set (w1 := x) in * end.
  assert (files w1 !! OsPath.join input_dir f2 = Some (Playable v2)) as Hv2'.
  { unfold w1. simpl. rewrite lookup_insert_ne; [done|]. by rewrite <- Hp1. }
  pose proof (process_video_opened model _ f2 w1 v2 Hv2') as Hrun2.
  simpl in Hrun2. rewrite Hm2, Hp2 in Hrun2.
  split; [exact Hrun2|]. split.
  { unfold frames_of. simpl. by rewrite lookup_insert_eq, Hw2. }
  split.
  { intros p Hp. simpl. by rewrite !lookup_insert_ne. }
  split.
  { rewrite main_cons, Hf1, Hrun1, main_cons, Hf2, Hrun2. unfold main. simpl.
    st_unfold. unfold print. simpl. reflexivity. }
  done.
Qed.

(** C10 (amended).  The output path is computed from the output directory
    and the stem of the file name.  Two files of a batch whose names are
    the same stem, with a character other than the dot and without
    separator, followed by accepted extensions get the same output path;
    when both open and every class id of their frames has a name, so that
    both are processed, that path holds after the first the annotated
    frames of the first and after the second those of the second: nothing
    is left of the first's output, and the batch ends normally. *)
Theorem C10_same_stem_overwrites (model : Detector) (stem ext1 ext2 : string)
    (w : World) (v1 v2 : Video) :
  occurs "/" stem = false ->
  all_dots stem = false ->
  In (Py.lower ext1) video_extensions ->
  In (Py.lower ext2) video_extensions ->
  files w !! OsPath.join input_dir (stem +:+ ext1) = Some (Playable v1) ->
  files w !! OsPath.join input_dir (stem +:+ ext2) = Some (Playable v2) ->
  Forall (all_mapped classes model) (frames v1) ->
  Forall (all_mapped classes model) (frames v2) ->
  let f1 := stem +:+ ext1 in
  let f2 := stem +:+ ext2 in
  let out_path := OsPath.join output_dir (stem +:+ "_processed.mp4") in
  output_video_path output_dir f1 = out_path /\
  output_video_path output_dir f2 = out_path /\
  exists w1 w2 w',
    process_video classes output_dir (OsPath.join input_dir f1) f1 model w = (Ok tt, w1) /\
    frames_of w1 out_path = Some (map (fun f => snd (annotate classes model f)) (frames v1)) /\
    process_video classes output_dir (OsPath.join input_dir f2) f2 model w1 = (Ok tt, w2) /\
    frames_of w2 out_path = Some (map (fun f => snd (annotate classes model f)) (frames v2)) /\
    (forall p, p <> out_path -> files w2 !! p = files w !! p) /\
    main classes input_dir output_dir [f1; f2] model w = (Ok tt, w') /\
    files w' = files w2.
Proof.
  intros Hsep Hdots He1 He2 Hv1 Hv2 Hm1 Hm2 f1 f2 out_path.
  destruct (video_extension_shape _ He1) as (e1 & -> & Hd1 & Hs1).
  destruct (video_extension_shape _ He2) as (e2 & -> & Hd2 & Hs2).
  assert (fst (OsPath.splitext f1) = stem) as Hr1.
  { unfold f1. by rewrite splitext_stem_ext. }
  assert (fst (OsPath.splitext f2) = stem) as Hr2.
  { unfold f2. by rewrite splitext_stem_ext. }
  assert (output_video_path output_dir f1 <> OsPath.join input_dir f2) as Hne.
  { unfold output_video_path. rewrite Hr1. intros Heq.
    apply join_injective_on_names in Heq.
    - apply (inj (String.append stem)) in Heq. rewrite <- Heq in He2.
      simpl in He2. intuition congruence.
    - rewrite occurs_app, Hsep. done.
    - unfold f2. rewrite occurs_app, Hsep. simpl. by rewrite Hs2. }
  pose proof (same_root_overwrites model f1 f2 w v1 v2) as H.
  rewrite Hr1, Hr2 in H. apply H; try done.
  - apply is_video_iff. by exists stem, (String "." e1).
  - apply is_video_iff. by exists stem, (String "." e2).
Qed.

(** *** Further properties of the loops *)

Lemma length_zip3 {A B C} (a : list A) (b : list B) (c : list C) :
  length (zip3 a b c) = (length a `min` (length b `min` length c))%nat.
Proof.
  revert b c. induction a as [|x a IH]; intros [|y b] [|z c]; simpl; try lia.
  rewrite IH. lia.
Qed.

Lemma calls_drawn_length (ds : list (Box * Q * Q)) :
  (length (calls_drawn classes ds) <= 2 * length ds)%nat /\
  (draw_outcome classes ds = Ok tt ->
   length (calls_drawn classes ds) = (2 * length ds)%nat).
Proof.
  induction ds as [|[[[[[x1 y1] x2] y2] c] k] ds [IHle IHeq]]; simpl; [done|].
  destruct (classes !! Py.int k) as [name|]; simpl.
  - split; [lia|]. intros H. rewrite (IHeq H). lia.
  - split; [lia | done].
Qed.

Lemma calls_drawn_all_mapped (ds : list (Box * Q * Q)) :
  Forall (mapped classes) ds ->
  calls_drawn classes ds =
  List.flat_map
    (fun d : Box * Q * Q =>
       let '(x1, y1, x2, y2, conf_, cls_id) := d in
       [ Rectangle (Py.int x1, Py.int y1) (Py.int x2, Py.int y2) (0, 255, 0) 2;
         PutText (default "" (classes !! Py.int cls_id) +:+ " " +:+ Py.format_2f conf_)
                 (Py.int x1, Z.max (Py.int y1 - 10) 0)
                 FONT_HERSHEY_SIMPLEX (1 # 2) (0, 255, 255) 2 ]) ds.
Proof.
  induction 1 as [|[[[[[x1 y1] x2] y2] c] k] ds [name Hk] _ IH]; [done|].
  simpl in *. by rewrite Hk, IH, max_is_max.
Qed.

Lemma draw_outcome_first_unmapped (ds : list (Box * Q * Q)) (j : nat) (d : Box * Q * Q) :
  ds !! j = Some d ->
  Forall (mapped classes) (take j ds) ->
  classes !! Py.int (snd d) = None ->
  draw_outcome classes ds = Raise (KeyError (Py.int (snd d))).
Proof.
  revert j. induction ds as [|[[b c] k] ds IH]; intros [|j] Hj Hm Hk; try done.
  - injection Hj as <-. simpl in *. by rewrite Hk.
  - simpl in *. inversion Hm as [|? ? [name Hn] Hm']; subst. simpl in Hn.
    rewrite Hn. by apply (IH j).
Qed.

Lemma loop_first_failure (model : Detector) (fs : list Frame) (i : nat) (f : Frame) (e : exn) :
  fs !! i = Some f ->
  Forall (all_mapped classes model) (take i fs) ->
  fst (annotate classes model f) = Raise e ->
  loop_outcome classes model fs = Raise e /\
  written_frames classes model fs
  = map (fun f => snd (annotate classes model f)) (take i fs) /\
  frames_read classes model fs = S i.
Proof.
  revert i. induction fs as [|g fs IH]; intros [|i] Hi Hm He; try done.
  - injection Hi as ->. simpl.
    by destruct (annotate classes model f) as [[[]|e'|] f']; simpl in He; simplify_eq.
  - simpl in *. inversion Hm as [|? ? Hg Hm']; subst.
    apply draw_outcome_ok in Hg. rewrite <- annotate_outcome in Hg.
    destruct (annotate classes model g) as [[[]|e'|] g']; simpl in Hg; try done.
    destruct (IH i Hi Hm' He) as (-> & -> & ->). done.
Qed.

Lemma loop_outcome_raise_inv (model : Detector) (fs : list Frame) (e : exn) :
  loop_outcome classes model fs = Raise e ->
  exists k, e = KeyError k /\ classes !! k = None /\
            (length (written_frames classes model fs) < length fs)%nat.
Proof.
  induction fs as [|f fs IH]; simpl; [done|].
  pose proof (annotate_outcome model f) as Ho.
  destruct (annotate classes model f) as [[[]|e'|] f']; simpl in Ho; symmetry in Ho.
  - intros H. destruct (IH H) as (k & ? & ? & ?). exists k. simpl. repeat split; try done. lia.
  - intros [= ->]. destruct (draw_outcome_raise _ _ Ho) as (k & -> & Hk & _).
    exists k. simpl. repeat split; try done. lia.
  - by apply draw_outcome_not_out_of_fuel in Ho.
Qed.

Lemma written_frames_complete (model : Detector) (fs : list Frame) (i : nat) (g : Frame) :
  written_frames classes model fs !! i = Some g ->
  exists f, fs !! i = Some f /\ annotate classes model f = (Ok tt, g).
Proof.
  revert i. induction fs as [|f fs IH]; intros i Hi; [done|]. simpl in Hi.
  destruct (annotate classes model f) as [[[]|e|] f'] eqn:Ha; try done.
  destruct i as [|i]; simpl in *.
  - injection Hi as <-. by exists f.
  - by apply IH.
Qed.

(** *** Further properties of [process_video] and [main] *)

Lemma process_video_footprint (model : Detector) (video_path filename : string) (w : World) :
  let w' := snd (process_video classes output_dir video_path filename model w) in
  (forall p, p <> output_video_path output_dir filename -> files w' !! p = files w !! p) /\
  (exists c, captures w' = (captures w ++ [c])%list) /\
  (exists os, writers w' = (writers w ++ os)%list /\ (length os <= 1)%nat) /\
  (exists lines, stdout w' = (stdout w ++ lines)%list).
Proof.
  destruct (files w !! video_path) as [[v|]|] eqn:E.
  - rewrite (process_video_opened _ _ _ _ v E).
    destruct (loop_outcome classes model (frames v)) as [[]|e|]; simpl;
      (split; [intros p Hp; by rewrite lookup_insert_ne|]);
      (split; [by eexists|]); (split; [eexists [_]; split; [done | simpl; lia]|]);
      eexists; reflexivity.
  - rewrite process_video_not_opened by congruence. simpl.
    split; [done|]. split; [by eexists|]. split; [exists []; split; [by rewrite app_nil_r | simpl; lia]|].
    by eexists.
  - rewrite process_video_not_opened by congruence. simpl.
    split; [done|]. split; [by eexists|]. split; [exists []; split; [by rewrite app_nil_r | simpl; lia]|].
    by eexists.
Qed.

Lemma main_files_footprint (listing : list string) (model : Detector) (w : World) (p : string) :
  (forall f, In f listing -> is_video f = true -> p <> output_video_path output_dir f) ->
  files (snd (main classes input_dir output_dir listing model w)) !! p = files w !! p.
Proof.
  revert w. induction listing as [|f rest IH]; intros w Hp; [done|].
  rewrite main_cons. destruct (is_video f) eqn:Hf.
  - destruct (process_video_footprint model (OsPath.join input_dir f) f w) as (Hfiles & _).
    destruct (process_video _ _ _ _ _ _) as [[[]|e|] w1]; simpl in *.
    + rewrite IH; [|intros g Hg; apply Hp; by right].
      apply Hfiles, Hp; [by left | done].
    + apply Hfiles, Hp; [by left | done].
    + apply Hfiles, Hp; [by left | done].
  - apply IH. intros g Hg. apply Hp. by right.
Qed.

Lemma progress_line_is_not_the_end (a b : string) :
  "Frames processed " +:+ a +:+ "/" +:+ b <> "Обработка завершена.".
Proof. rewrite append_cons. discriminate. Qed.

Lemma process_video_lines (model : Detector) (video_path filename : string) (w : World) :
  exists lines,
    Forall (fun line => line <> "Обработка завершена.") lines /\
    stdout (snd (process_video classes output_dir video_path filename model w))
    = (stdout w ++ lines)%list.
Proof.
  assert (forall total first n,
            Forall (fun line => line <> "Обработка завершена.")
                   (progress_lines total first n)) as Hprog.
  { intros total first n. unfold progress_lines. apply Forall_forall.
    intros line Hin. apply list_elem_of_fmap in Hin as (i & -> & _).
    apply progress_line_is_not_the_end. }
  destruct (files w !! video_path) as [[v|]|] eqn:E.
  - rewrite (process_video_opened _ _ _ _ v E).
    destruct (loop_outcome classes model (frames v)) as [[]|e|]; simpl.
    + eexists. split; [|reflexivity]. apply Forall_app. split; [apply Hprog|].
      constructor; [|constructor]. rewrite !append_cons. discriminate.
    + eexists. split; [|reflexivity]. apply Hprog.
    + eexists. split; [|reflexivity]. apply Hprog.
  - rewrite process_video_not_opened by congruence. simpl.
    eexists. split; [|reflexivity].
    constructor; [|constructor]. rewrite !append_cons. discriminate.
  - rewrite process_video_not_opened by congruence. simpl.
    eexists. split; [|reflexivity].
    constructor; [|constructor]. rewrite !append_cons. discriminate.
Qed.

Lemma main_lines (listing : list string) (model : Detector) (w : World) :
  exists lines,
    Forall (fun line => line <> "Обработка завершена.") lines /\
    stdout (snd (main classes input_dir output_dir listing model w))
    = (stdout w ++ lines
         ++ match fst (main classes input_dir output_dir listing model w) with
            | Ok _ => ["Обработка завершена."]
            | _ => []
            end)%list.
Proof.
  revert w. induction listing as [|f rest IH]; intros w.
  - exists []. split; [constructor | done].
  - rewrite main_cons. destruct (is_video f); [|apply IH].
    destruct (process_video_lines model (OsPath.join input_dir f) f w)
      as (l1 & Hl1 & Hs1).
    destruct (process_video _ _ _ _ _ _) as [[[]|e|] w1]; simpl in *.
    + destruct (IH w1) as (l2 & Hl2 & Hs2). exists (l1 ++ l2)%list.
      split; [by apply Forall_app|]. by rewrite Hs2, Hs1, <- !app_assoc.
    + exists l1. split; [done|]. by rewrite app_nil_r.
    + exists l1. split; [done|]. by rewrite app_nil_r.
Qed.

(** *** Further theorems *)

(** X2.  Whatever the outcome, once the source has opened the output path
    holds a video with the frame rate of the source, with the source's
    width and height truncated to integers, and whose frame count is the
    number of frames written so far. *)
Theorem X2_output_video_metadata (model : Detector) (video_path filename : string)
    (w w' : World) (r : outcome unit) (v : Video) :
  files w !! video_path = Some (Playable v) ->
  process_video classes output_dir video_path filename model w = (r, w') ->
  exists out_v,
    files w' !! output_video_path output_dir filename = Some (Playable out_v) /\
    fps out_v = fps v /\
    frame_width out_v = inject_Z (Py.int (frame_width v)) /\
    frame_height out_v = inject_Z (Py.int (frame_height v)) /\
    frame_count out_v = inject_Z (Z.of_nat (length (frames out_v))).
Proof.
  intros Hv Hrun. rewrite (process_video_opened _ _ _ _ v Hv) in Hrun.
  destruct (loop_outcome classes model (frames v)) as [[]|e|];
    injection Hrun as <- <-; simpl; rewrite lookup_insert_eq; by eexists.
Qed.

(** X3.  A run that completes on a video of n frames prints n progress
    lines, numbered 0 to n - 1 over the frame count the container reports
    (truncated), then the line naming the output path; the last progress
    line reads n - 1, not n. *)
Theorem X3_progress_lines_of_a_completed_run (model : Detector)
    (video_path filename : string) (w w' : World) (v : Video) :
  files w !! video_path = Some (Playable v) ->
  process_video classes output_dir video_path filename model w = (Ok tt, w') ->
  stdout w' =
  (stdout w
   ++ map (fun i : nat =>
             "Frames processed " +:+ Py.str (Z.of_nat i) +:+ "/"
               +:+ Py.str (Py.int (frame_count v)))
          (seq 0 (length (frames v)))
   ++ ["Сохранён обработанный файл: " +:+ output_video_path output_dir filename])%list.
Proof.
  intros Hv Hrun. rewrite (process_video_opened _ _ _ _ v Hv) in Hrun.
  destruct (loop_outcome classes model (frames v)) as [[]|e|] eqn:Ho; try done.
  destruct (written_frames_ok _ _ Ho) as [Hw _].
  injection Hrun as <-. simpl. by rewrite Hw, length_map.
Qed.

(** X4.  A video that opens and has no frame gives an output file with no
    frame and a normal return: the only line printed is the one naming the
    output path, and both objects are released. *)
Theorem X4_video_without_frames (model : Detector) (video_path filename : string)
    (w : World) (v : Video) :
  files w !! video_path = Some (Playable v) ->
  frames v = [] ->
  exists w',
    process_video classes output_dir video_path filename model w = (Ok tt, w') /\
    frames_of w' (output_video_path output_dir filename) = Some [] /\
    stdout w' = (stdout w ++ ["Сохранён обработанный файл: "
                                +:+ output_video_path output_dir filename])%list /\
    map c_isOpened (captures w') = (map c_isOpened (captures w) ++ [false])%list /\
    map o_isOpened (writers w') = (map o_isOpened (writers w) ++ [false])%list.
Proof.
  intros Hv Hnil. rewrite (process_video_opened _ _ _ _ v Hv), Hnil. simpl.
  eexists. split; [done|]. simpl. unfold frames_of. simpl.
  rewrite lookup_insert_eq, !map_app. done.
Qed.

(** X5.  The exception names the first class id that has no name: if the
    frames before frame i are fully named, and on frame i the detections
    before detection j are named and detection j is not, [process_video]
    raises [KeyError] with the truncated class id of detection j, after
    having written exactly the i frames before. *)
Theorem X5_first_unmapped_class_id_is_raised (model : Detector)
    (video_path filename : string) (w : World) (v : Video)
    (i j : nat) (frame : Frame) (d : Box * Q * Q) :
  files w !! video_path = Some (Playable v) ->
  frames v !! i = Some frame ->
  Forall (all_mapped classes model) (take i (frames v)) ->
  detections (model frame) !! j = Some d ->
  Forall (mapped classes) (take j (detections (model frame))) ->
  classes !! Py.int (snd d) = None ->
  exists w',
    process_video classes output_dir video_path filename model w
    = (Raise (KeyError (Py.int (snd d))), w') /\
    frames_of w' (output_video_path output_dir filename)
    = Some (map (fun f => snd (annotate classes model f)) (take i (frames v))).
Proof.
  intros Hv Hi Hbefore Hj Hnamed Hk.
  pose proof (draw_outcome_first_unmapped _ _ _ Hj Hnamed Hk) as Hd.
  rewrite <- annotate_outcome in Hd.
  destruct (loop_first_failure model _ _ _ _ Hi Hbefore Hd) as (Ho & Hw & _).
  rewrite (process_video_opened _ _ _ _ v Hv), Ho, Hw. simpl.
  eexists. split; [done|]. unfold frames_of. simpl. by rewrite lookup_insert_eq.
Qed.

(** X6.  When [process_video] ends with an exception, nothing is cleaned
    up: the capture and the writer it created are still opened, the output
    file stays with the frames written before the failure, fewer than the
    source has, and the line naming the output path is not printed. *)
Theorem X6_no_cleanup_after_an_exception (model : Detector)
    (video_path filename : string) (w w' : World) (e : exn) :
  process_video classes output_dir video_path filename model w = (Raise e, w') ->
  exists c o v written,
    files w !! video_path = Some (Playable v) /\
    captures w' = (captures w ++ [c])%list /\ c_isOpened c = true /\
    writers w' = (writers w ++ [o])%list /\ o_isOpened o = true /\
    o_path o = output_video_path output_dir filename /\
    frames_of w' (output_video_path output_dir filename) = Some written /\
    (length written < length (frames v))%nat /\
    stdout w' =
    (stdout w ++ map (fun i : nat =>
                        "Frames processed " +:+ Py.str (Z.of_nat i) +:+ "/"
                          +:+ Py.str (Py.int (frame_count v)))
                     (seq 0 (length written)))%list.
Proof.
  intros Hrun. destruct (files w !! video_path) as [[v|]|] eqn:E.
  - rewrite (process_video_opened _ _ _ _ v E) in Hrun.
    destruct (loop_outcome classes model (frames v)) as [[]|e'|] eqn:Ho; try done.
    destruct (loop_outcome_raise_inv _ _ _ Ho) as (k & _ & _ & Hlt).
    injection Hrun as _ <-. simpl.
    eexists _, _, v, _. split; [done|]. split; [done|]. split; [done|].
    split; [done|]. split; [done|]. split; [done|]. split.
    { unfold frames_of. simpl. by rewrite lookup_insert_eq. }
    split; [exact Hlt | done].
  - by rewrite process_video_not_opened in Hrun by congruence.
  - by rewrite process_video_not_opened in Hrun by congruence.
Qed.

(** X7.  No half-annotated frame reaches the output: every frame in the
    sink is the frame read at the same index after a drawing block that
    completed, so all its detections have a class name. *)
Theorem X7_written_frames_are_fully_annotated (model : Detector)
    (video_path filename : string) (w w' : World) (r : outcome unit) (v : Video) :
  files w !! video_path = Some (Playable v) ->
  process_video classes output_dir video_path filename model w = (r, w') ->
  exists written,
    frames_of w' (output_video_path output_dir filename) = Some written /\
    forall i g,
      written !! i = Some g ->
      exists f,
        frames v !! i = Some f /\
        draw_detections classes (model f) f = (Ok tt, g) /\
        Forall (mapped classes) (detections (model f)).
Proof.
  intros Hv Hrun. rewrite (process_video_opened _ _ _ _ v Hv) in Hrun.
  exists (written_frames classes model (frames v)). split.
  - unfold frames_of.
    by destruct (loop_outcome classes model (frames v)) as [[]|e|];
      injection Hrun as <- <-; simpl; rewrite lookup_insert_eq.
  - intros i g Hg. destruct (written_frames_complete _ _ _ _ Hg) as (f & Hf & Ha).
    exists f. split; [done|]. split; [done|].
    apply draw_outcome_ok. rewrite <- annotate_outcome. by rewrite Ha.
Qed.

(** X8.  When every detection has a class name, the drawing block returns
    normally and adds to the frame, in the detector's order, for each
    detection its green rectangle of thickness 2 and then its label: a
    later detection is drawn over the earlier ones. *)
Theorem X8_drawing_order (results : Boxes) (frame : Frame) :
  Forall (mapped classes) (detections results) ->
  draw_detections classes results frame =
  (Ok tt,
   mkFrame (raster frame)
     (drawn frame ++
      List.flat_map
        (fun d : Box * Q * Q =>
           let '(x1, y1, x2, y2, conf_, cls_id) := d in
           [ Rectangle (Py.int x1, Py.int y1) (Py.int x2, Py.int y2) (0, 255, 0) 2;
             PutText (default "" (classes !! Py.int cls_id) +:+ " "
                        +:+ Py.format_2f conf_)
                     (Py.int x1, Z.max (Py.int y1 - 10) 0)
                     FONT_HERSHEY_SIMPLEX (1 # 2) (0, 255, 255) 2 ])
        (detections results))%list).
Proof.
  intros Hm. rewrite draw_detections_for_each, for_each_draw_detection.
  rewrite calls_drawn_all_mapped by done. f_equal. by apply draw_outcome_ok.
Qed.

(** X9.  The three sequences of the detector are zipped: the block makes
    at most two drawing calls per position that all three have, exactly
    two when it completes, and none when the box sequence is None;
    confidences and class ids beyond the shortest sequence are ignored. *)
Theorem X9_detections_are_zipped (results : Boxes) (frame : Frame) :
  let n := match xyxy results with
           | Some boxes =>
               (length boxes `min` (length (conf results) `min` length (cls results)))%nat
           | None => 0%nat
           end in
  let frame' := snd (draw_detections classes results frame) in
  (length (drawn frame') <= length (drawn frame) + 2 * n)%nat /\
  (fst (draw_detections classes results frame) = Ok tt ->
   length (drawn frame') = (length (drawn frame) + 2 * n)%nat).
Proof.
  intros n frame'. unfold frame'.
  rewrite draw_detections_for_each, for_each_draw_detection. simpl.
  assert (length (detections results) = n) as Hn.
  { unfold detections, n. destruct (xyxy results); [apply length_zip3 | done]. }
  rewrite length_app. destruct (calls_drawn_length (detections results)) as [Hle Heq].
  rewrite Hn in Hle, Heq. split; [lia|]. intros H. rewrite (Heq H). lia.
Qed.

(** X10.  Whatever the outcome, [process_video] leaves every file other
    than its output path as it was, adds one capture object and at most one
    writer object after the existing ones, and only appends to the
    console. *)
Theorem X10_process_video_footprint (model : Detector) (video_path filename : string)
    (w w' : World) (r : outcome unit) :
  process_video classes output_dir video_path filename model w = (r, w') ->
  (forall p, p <> output_video_path output_dir filename -> files w' !! p = files w !! p) /\
  (exists c, captures w' = (captures w ++ [c])%list) /\
  (exists os, writers w' = (writers w ++ os)%list /\ (length os <= 1)%nat) /\
  (exists lines, stdout w' = (stdout w ++ lines)%list).
Proof.
  intros Hrun. pose proof (process_video_footprint model video_path filename w) as H.
  by rewrite Hrun in H.
Qed.

(** X11.  The batch driver writes to output paths only: a path that is not
    the output path of a listed video name holds after the batch, complete
    or not, what it held before. *)
Theorem X11_main_writes_output_paths_only (listing : list string) (model : Detector)
    (w w' : World) (r : outcome unit) (p : string) :
  main classes input_dir output_dir listing model w = (r, w') ->
  (forall f, In f listing -> is_video f = true ->
             p <> output_video_path output_dir f) ->
  files w' !! p = files w !! p.
Proof.
  intros Hrun Hp. pose proof (main_files_footprint listing model w p Hp) as H.
  by rewrite Hrun in H.
Qed.

(** X12.  The completion message is printed when, and only when, the
    batch driver returns normally, once and as its last line: what the
    driver prints is a list of lines none of which is the completion
    message, followed by the message if the outcome is a normal return and
    by nothing otherwise. *)
Theorem X12_completion_message (listing : list string) (model : Detector)
    (w w' : World) (r : outcome unit) :
  main classes input_dir output_dir listing model w = (r, w') ->
  exists lines,
    Forall (fun line => line <> "Обработка завершена.") lines /\
    stdout w' = (stdout w ++ lines
                   ++ match r with
                      | Ok _ => ["Обработка завершена."]
                      | _ => []
                      end)%list.
Proof.
  intros Hrun. pose proof (main_lines listing model w) as H.
  by rewrite Hrun in H.
Qed.

(** X14.  Processing the same video a second time gives the same outcome
    and leaves the files as the first run left them, provided the output
    path is not the path of the source. *)
Theorem X14_second_run_changes_no_file (model : Detector) (video_path filename : string)
    (w w1 w2 : World) (r1 r2 : outcome unit) :
  output_video_path output_dir filename <> video_path ->
  process_video classes output_dir video_path filename model w = (r1, w1) ->
  process_video classes output_dir video_path filename model w1 = (r2, w2) ->
  r2 = r1 /\ files w2 = files w1.
Proof.
  intros Hne Hrun1 Hrun2. destruct (files w !! video_path) as [[v|]|] eqn:E.
  - rewrite (process_video_opened _ _ _ _ v E) in Hrun1.
    assert (files w1 !! video_path = Some (Playable v)) as E1.
    { destruct (loop_outcome classes model (frames v)) as [[]|e|];
        injection Hrun1 as _ <-; simpl; by rewrite lookup_insert_ne. }
    rewrite (process_video_opened _ _ _ _ v E1) in Hrun2.
    destruct (loop_outcome classes model (frames v)) as [[]|e|];
      injection Hrun1 as <- <-; injection Hrun2 as <- <-; simpl;
      by rewrite insert_insert_eq.
  - rewrite process_video_not_opened in Hrun1 by congruence.
    injection Hrun1 as <- <-.
    rewrite process_video_not_opened in Hrun2 by (simpl; congruence).
    by injection Hrun2 as <- <-.
  - rewrite process_video_not_opened in Hrun1 by congruence.
    injection Hrun1 as <- <-.
    rewrite process_video_not_opened in Hrun2 by (simpl; congruence).
    by injection Hrun2 as <- <-.
Qed.

(** X15.  For a file name of a directory listing (no "/"), the output path
    is never the path the batch driver reads: a video is not overwritten
    by its own output, even when the input and output directories are the
    same. *)
Theorem X15_output_is_not_the_input (filename : string) :
  occurs "/" filename = false ->
  output_video_path output_dir filename <> OsPath.join input_dir filename.
Proof.
  intros Hsep. unfold output_video_path.
  destruct (OsPath.splitext filename) as [root ext] eqn:Hs. simpl.
  destruct (splitext_shape _ _ _ Hs) as [Hp Hext].
  assert (occurs "/" root = false) as Hroot.
  { rewrite Hp, occurs_app in Hsep. by apply orb_false_iff in Hsep as [? _]. }
  intros Heq. apply join_injective_on_names in Heq.
  - rewrite Hp in Heq. apply (inj (String.append root)) in Heq.
    destruct Hext as [->|(e & -> & _)]; discriminate Heq.
  - by rewrite occurs_app, Hroot.
  - done.
Qed.

(** X16.  The name of an output file passes the extension test, and its
    own output name is longer by one more "_processed": when the output
    directory is the input directory, a second batch processes the outputs
    of the first and writes them to new paths. *)
Theorem X16_outputs_are_videos_again (filename : string) :
  occurs "/" filename = false ->
  let root := fst (OsPath.splitext filename) in
  is_video (root +:+ "_processed.mp4") = true /\
  output_video_path output_dir (root +:+ "_processed.mp4")
  = OsPath.join output_dir (root +:+ "_processed" +:+ "_processed.mp4").
Proof.
  intros Hsep root. split.
  - apply is_video_iff. exists (root +:+ "_processed"), ".mp4".
    split; [by rewrite string_app_assoc | by left].
  - destruct (OsPath.splitext filename) as [root' ext] eqn:Hs.
    destruct (splitext_shape _ _ _ Hs) as [Hp _]. simpl in root. subst root.
    assert (occurs "/" root' = false) as Hroot.
    { rewrite Hp, occurs_app in Hsep. by apply orb_false_iff in Hsep as [? _]. }
    unfold output_video_path.
    replace (root' +:+ "_processed.mp4") with ((root' +:+ "_processed") +:+ String "." "mp4")
      by (by rewrite string_app_assoc).
    rewrite splitext_stem_ext; try done.
    + simpl. by rewrite string_app_assoc.
    + by rewrite occurs_app, Hroot.
    + rewrite all_dots_app. by rewrite andb_false_r.
Qed.

(** X17.  [int] on a float truncates toward zero: the integer drawn for a
    coordinate lies between zero and the coordinate and is less than one
    pixel away from it. *)
Theorem X17_int_truncates_toward_zero (x : Q) :
  ((0 <= x)%Q ->
   0 <= Py.int x /\ (inject_Z (Py.int x) <= x)%Q /\ (x < inject_Z (Py.int x + 1))%Q) /\
  ((x <= 0)%Q ->
   Py.int x <= 0 /\ (x <= inject_Z (Py.int x))%Q /\ (inject_Z (Py.int x - 1) < x)%Q).
Proof.
  destruct (int_truncates x) as [Hpos Hneg]. split; intros H.
  - destruct (Hpos H) as (? & ? & ?). done.
  - destruct (Hneg H) as (? & ? & ?). done.
Qed.

(** X18.  [os.path.splitext] cuts a path in two without losing a
    character: root followed by extension is the path, and the extension
    is empty or starts with its only dot and has no "/". *)
Theorem X18_splitext_round_trip (p : string) :
  let '(root, ext) := OsPath.splitext p in
  root +:+ ext = p /\
  (ext = "" \/
   exists e, ext = String "." e /\ occurs "." e = false /\ occurs "/" e = false).
Proof.
  destruct (OsPath.splitext p) as [root ext] eqn:Hs.
  destruct (splitext_shape _ _ _ Hs) as [Hp Hext]. by split.
Qed.

(** X19.  On a listing without any name that passes the extension test,
    the empty listing included, the batch driver opens nothing, writes no
    file and prints the completion message only. *)
Theorem X19_listing_without_videos (listing : list string) (model : Detector) (w : World) :
  (forall f, In f listing -> is_video f = false) ->
  main classes input_dir output_dir listing model w =
  (Ok tt, mkWorld (files w) (stdout w ++ ["Обработка завершена."])%list
                  (captures w) (writers w)).
Proof.
  intros Hno. rewrite main_filter.
  assert (List.filter is_video listing = []) as ->; [|done].
  induction listing as [|f rest IH]; [done|]. simpl.
  rewrite (Hno f) by (by left). apply IH. intros g Hg. apply Hno. by right.
Qed.

End Properties.

(** ** The claims on the test scenario *)

Example scenario_labels :
  map drawn (default [] (frames_of Scenario.after_clip "out/clip_processed.mp4")) =
  [ [];
    [ Rectangle (10, 3) (100, 200) (0, 255, 0) 2;
      PutText "person 0.91" (10, 0) FONT_HERSHEY_SIMPLEX (1 # 2) (0, 255, 255) 2;
      Rectangle (-2, 50) (700, 500) (0, 255, 0) 2;
      PutText "car 0.42" (-2, 40) FONT_HERSHEY_SIMPLEX (1 # 2) (0, 255, 255) 2 ];
    [] ].
Proof. vm_compute. reflexivity. Qed.

Example scenario_aborted_run :
  fst (process_video Scenario.classes "out" "in/clip.mp4" "clip.mp4"
                     Scenario.unknown_on_second Scenario.world)
  = Raise (KeyError 7) /\
  frames_of Scenario.after_unknown "out/clip_processed.mp4" = Some [Scenario.blank 0] /\
  map c_delivered (captures Scenario.after_unknown) = [2%nat] /\
  stdout Scenario.after_unknown = ["Frames processed 0/3"].
Proof. vm_compute. repeat split; reflexivity. Qed.

Example scenario_batch_output :
  stdout Scenario.after_batch =
  [ "Frames processed 0/3"; "Frames processed 1/3"; "Frames processed 2/3";
    "Сохранён обработанный файл: out/clip_processed.mp4";
    "Не удалось открыть видео in/bad.MP4";
    "Обработка завершена." ].
Proof. vm_compute. reflexivity. Qed.

Lemma C1_witness :
  exists (c : Capture) (written : list Frame),
    captures Scenario.after_clip = [c] /\
    frames_of Scenario.after_clip "out/clip_processed.mp4" = Some written /\
    c_delivered c = 3%nat /\
    length written = c_delivered c.
Proof.
  destruct (C1_frames_written_once_in_order Scenario.classes "out"
              Scenario.two_on_second "in/clip.mp4" "clip.mp4"
              Scenario.world Scenario.after_clip (Ok tt) Scenario.clip)
    as (c & written & Hc & Hf & _ & _ & _ & Hok & _).
  - vm_compute. reflexivity.
  - vm_compute. reflexivity.
  - destruct (Hok eq_refl) as [Hn Hl]. exists c, written.
    split; [exact Hc|]. split; [exact Hf|]. split; [exact Hn | exact Hl].
Defined.

(** C1 as stated fails: on the clip with a class id outside the table on
    its second frame, the source opens, two frames are read and one is
    written. *)
Lemma C1_counterexample :
  ~ (forall (classes : gmap Z string) (output_dir : string) (model : Detector)
            (video_path filename : string) (w : World) (v : Video),
       files w !! video_path = Some (Playable v) ->
       let w' := snd (process_video classes output_dir video_path filename model w) in
       exists (c : Capture) (written : list Frame),
         captures w' = (captures w ++ [c])%list /\
         frames_of w' (output_video_path output_dir filename) = Some written /\
         length written = c_delivered c).
Proof.
  intros H.
  destruct (H Scenario.classes "out" Scenario.unknown_on_second
              "in/clip.mp4" "clip.mp4" Scenario.world Scenario.clip eq_refl)
    as (c & written & Hc & Hf & Hl).
  vm_compute in Hc. vm_compute in Hf.
  injection Hc as <-. injection Hf as <-. discriminate Hl.
Qed.

Lemma C2_witness :
  exists w',
    process_video Scenario.classes "out" "in/bad.MP4" "bad.MP4"
                  Scenario.two_on_second Scenario.world = (Ok tt, w') /\
    stdout w' = ["Не удалось открыть видео in/bad.MP4"] /\
    files w' = files Scenario.world /\
    writers w' = [] /\
    main Scenario.classes "in" "out" ["bad.MP4"; "clip.mp4"] Scenario.two_on_second
         Scenario.world
    = main Scenario.classes "in" "out" ["clip.mp4"] Scenario.two_on_second w'.
Proof.
  destruct (C2_open_failure_is_skipped Scenario.classes "in" "out"
              Scenario.two_on_second "in/bad.MP4" "bad.MP4" Scenario.world)
    as (w' & Hrun & Hout & Hfiles & Hwr & Hnext & _).
  - intros v. vm_compute. discriminate.
  - exists w'. split; [exact Hrun|]. split; [exact Hout|]. split; [exact Hfiles|].
    split; [exact Hwr|]. apply Hnext; reflexivity.
Defined.

Lemma C4_witness :
  exists written,
    frames_of Scenario.after_clip "out/clip_processed.mp4" = Some written /\
    written !! 2%nat = Some (Scenario.blank 2).
Proof.
  eapply (C4_frame_without_detections_unchanged Scenario.classes "out"
            Scenario.two_on_second "in/clip.mp4" "clip.mp4"
            Scenario.world Scenario.after_clip (Ok tt) Scenario.clip _ 2).
  - vm_compute. reflexivity.
  - vm_compute. reflexivity.
  - vm_compute. reflexivity.
  - reflexivity.
  - vm_compute. lia.
  - reflexivity.
Defined.

Lemma C5_witness :
  (exists video,
     files Scenario.after_clip
     = <["out/clip_processed.mp4" := Playable video]> (files Scenario.world)) /\
  dom (files Scenario.after_clip)
  = {["out/clip_processed.mp4"]} ∪ dom (files Scenario.world).
Proof.
  destruct (C5_one_output_file Scenario.classes "out" Scenario.two_on_second
              "in/clip.mp4" "clip.mp4" "clip" ".mp4"
              Scenario.world Scenario.after_clip Scenario.clip)
    as (Hfile & Hdom & _).
  - vm_compute. reflexivity.
  - reflexivity.
  - vm_compute. reflexivity.
  - split; assumption.
Defined.



Lemma C7_witness :
  exists c o,
    captures Scenario.after_clip = [c] /\ capture_released c /\
    writers Scenario.after_clip = [o] /\ writer_released o.
Proof.
  destruct (C7_handles_released Scenario.classes "out" Scenario.two_on_second
              "in/clip.mp4" "clip.mp4" Scenario.world Scenario.after_clip)
    as (c & Hc & Hrel & [[_ (o & Ho & Horel)] | [Hno _]]).
  - vm_compute. reflexivity.
  - exists c, o. repeat split; assumption.
  - exfalso. apply (Hno Scenario.clip). vm_compute. reflexivity.
Defined.

Lemma C8_witness :
  exists k w',
    Scenario.classes !! k = None /\
    process_video Scenario.classes "out" "in/clip.mp4" "clip.mp4"
                  Scenario.unknown_on_second Scenario.world
    = (Raise (KeyError k), w') /\
    main Scenario.classes "in" "out" ["clip.mp4"; "clip.avi"]
         Scenario.unknown_on_second Scenario.world
    = (Raise (KeyError k), w').
Proof.
  destruct (C8_unmapped_class_id_aborts Scenario.classes "in" "out"
              Scenario.unknown_on_second "in/clip.mp4" "clip.mp4"
              Scenario.world Scenario.clip (Scenario.blank 1)
              ((1 # 1, 2 # 1, 3 # 1, 4 # 1)%Q, (1 # 2)%Q, (7 # 1)%Q))
    as (k & w' & Hk & Hrun & Hmain).
  - vm_compute. reflexivity.
  - apply list_elem_of_further, list_elem_of_here.
  - apply list_elem_of_here.
  - vm_compute. reflexivity.
  - exists k, w'. split; [exact Hk|]. split; [exact Hrun|].
    apply Hmain; reflexivity.
Defined.

Lemma C10_witness :
  output_video_path "out" "clip.mp4" = "out/clip_processed.mp4" /\
  output_video_path "out" "clip.avi" = "out/clip_processed.mp4" /\
  exists w',
    main Scenario.classes "in" "out" ["clip.mp4"; "clip.avi"]
         Scenario.two_on_second Scenario.world = (Ok tt, w') /\
    frames_of w' "out/clip_processed.mp4" =
    Some (map (fun f => snd (annotate Scenario.classes Scenario.two_on_second f))
              (frames Scenario.short)).
Proof.
  destruct (C10_same_stem_overwrites Scenario.classes "in" "out"
              Scenario.two_on_second "clip" ".mp4" ".avi"
              Scenario.world Scenario.clip Scenario.short)
    as (H1 & H2 & w1 & w2 & w' & _ & _ & _ & Hf2 & _ & Hmain & Hfiles).
  - reflexivity.
  - reflexivity.
  - vm_compute. tauto.
  - vm_compute. tauto.
  - vm_compute. reflexivity.
  - vm_compute. reflexivity.
  - apply loop_outcome_ok. vm_compute. reflexivity.
  - apply loop_outcome_ok. vm_compute. reflexivity.
  - split; [exact H1|]. split; [exact H2|]. exists w'. split; [exact Hmain|].
    unfold frames_of in *. rewrite Hfiles. exact Hf2.
Defined.

Lemma C3_witness :
  exists calls,
    drawn (snd (draw_detections Scenario.classes
                  (Scenario.two_on_second (Scenario.blank 1)) (Scenario.blank 1)))
    = calls /\
    PutText "person 0.91" (10, 0) FONT_HERSHEY_SIMPLEX (1 # 2) (0, 255, 255) 2 ∈ calls /\
    PutText "car 0.42" (-2, 40) FONT_HERSHEY_SIMPLEX (1 # 2) (0, 255, 255) 2 ∈ calls /\
    two_decimals (91 # 100) "0.91".
Proof.
  destruct (C3_label_text_and_position Scenario.classes
              (Scenario.two_on_second (Scenario.blank 1)) (Scenario.blank 1))
    as (calls & Hd & _ & Hall & _ & Hfmt & _).
  exists calls. split; [exact Hd|].
  assert (fst (draw_detections Scenario.classes
                 (Scenario.two_on_second (Scenario.blank 1)) (Scenario.blank 1))
          = Ok tt) as Hok by (vm_compute; reflexivity).
  split; [|split].
  - destruct (Hall Hok (21 # 2) (7 # 2) (100 # 1) (200 # 1) (91 # 100) (0 # 1))%Q
      as (name & Hname & Hput).
    + apply list_elem_of_here.
    + vm_compute in Hname. injection Hname as <-. exact Hput.
  - destruct (Hall Hok (-5 # 2) (50 # 1) (700 # 1) (500 # 1) (42 # 100) (1 # 1))%Q
      as (name & Hname & Hput).
    + apply list_elem_of_further, list_elem_of_here.
    + vm_compute in Hname. injection Hname as <-. exact Hput.
  - exact (Hfmt (91 # 100)%Q).
Defined.

Lemma C9_witness :
  exists calls,
    (forall frame,
       drawn (snd (draw_detections Scenario.classes
                     (Scenario.two_on_second (Scenario.blank 1)) frame))
       = (drawn frame ++ calls)%list) /\
    Rectangle (10, 3) (100, 200) (0, 255, 0) 2 ∈ calls /\
    Rectangle (-2, 50) (700, 500) (0, 255, 0) 2 ∈ calls /\
    truncation (-5 # 2) (-2).
Proof.
  destruct (C9_boxes_drawn_as_given Scenario.classes
              (Scenario.two_on_second (Scenario.blank 1)))
    as (calls & Hd & _ & _ & _ & Hreach & _ & Htrunc & _).
  exists calls. split; [exact Hd|]. split; [|split].
  - apply (Hreach 0%nat (21 # 2) (7 # 2) (100 # 1) (200 # 1) (91 # 100) (0 # 1))%Q.
    + reflexivity.
    + constructor.
  - apply (Hreach 1%nat (-5 # 2) (50 # 1) (700 # 1) (500 # 1) (42 # 100) (1 # 1))%Q.
    + reflexivity.
    + constructor; [|constructor]. eexists. vm_compute. reflexivity.
  - exact (Htrunc (-5 # 2)%Q).
Defined.

(** C9 as stated fails: when the first detection of a frame has a class
    id without a name, the block ends on it and the second detection gets
    no rectangle. *)
Lemma C9_counterexample :
  ~ (forall (classes : gmap Z string) (results : Boxes) (frame : Frame)
            (x1 y1 x2 y2 conf_ cls_id : Q),
       (x1, y1, x2, y2, conf_, cls_id) ∈ detections results ->
       Rectangle (Py.int x1, Py.int y1) (Py.int x2, Py.int y2) (0, 255, 0) 2
         ∈ drawn (snd (draw_detections classes results frame))).
Proof.
  intros H.
  specialize (H Scenario.classes Scenario2.unknown_first (Scenario.blank 0)
                (5 # 1) (6 # 1) (7 # 1) (8 # 1) (9 # 10) (0 # 1))%Q.
  assert (drawn (snd (draw_detections Scenario.classes Scenario2.unknown_first
                        (Scenario.blank 0)))
          = [Rectangle (1, 2) (3, 4) (0, 255, 0) 2]) as Hdrawn
    by (vm_compute; reflexivity).
  rewrite Hdrawn in H.
  assert (Rectangle (Py.int (5 # 1), Py.int (6 # 1)) (Py.int (7 # 1), Py.int (8 # 1))
                    (0, 255, 0) 2 ∈ [Rectangle (1, 2) (3, 4) (0, 255, 0) 2]) as Hin.
  { apply H. apply list_elem_of_further, list_elem_of_here. }
  apply list_elem_of_singleton in Hin. discriminate Hin.
Qed.

(** C10 as stated fails twice.  Names that are an accepted extension and
    nothing else, as ".mp4" and ".avi", have no extension for
    [os.path.splitext] and get different output paths.  And when the first
    of two videos of the same stem ends the batch with a failed lookup, the
    second is not written. *)
Lemma C10_counterexample :
  ~ (forall (output_dir stem ext1 ext2 : string),
       occurs "/" stem = false ->
       In (Py.lower ext1) video_extensions ->
       In (Py.lower ext2) video_extensions ->
       output_video_path output_dir (stem +:+ ext1)
       = output_video_path output_dir (stem +:+ ext2))
  /\
  ~ (forall (classes : gmap Z string) (input_dir output_dir : string)
            (model : Detector) (stem ext1 ext2 : string) (w : World) (v1 v2 : Video),
       occurs "/" stem = false ->
       all_dots stem = false ->
       In (Py.lower ext1) video_extensions ->
       In (Py.lower ext2) video_extensions ->
       files w !! OsPath.join input_dir (stem +:+ ext1) = Some (Playable v1) ->
       files w !! OsPath.join input_dir (stem +:+ ext2) = Some (Playable v2) ->
       frames_of (snd (main classes input_dir output_dir
                            [stem +:+ ext1; stem +:+ ext2] model w))
                 (output_video_path output_dir (stem +:+ ext2))
       = Some (map (fun f => snd (annotate classes model f)) (frames v2))).
Proof.
  split.
  - intros H. specialize (H "out" "" ".mp4" ".avi" eq_refl).
    assert (output_video_path "out" ("" +:+ ".mp4")
            = output_video_path "out" ("" +:+ ".avi")) as Heq.
    { apply H; vm_compute; tauto. }
    vm_compute in Heq. discriminate Heq.
  - intros H.
    specialize (H Scenario.classes "in" "out" Scenario.unknown_on_second
                  "clip" ".mp4" ".avi" Scenario.world Scenario.clip Scenario.short
                  eq_refl eq_refl).
    assert (frames_of (snd (main Scenario.classes "in" "out"
                                 ["clip" +:+ ".mp4"; "clip" +:+ ".avi"]
                                 Scenario.unknown_on_second Scenario.world))
                      (output_video_path "out" ("clip" +:+ ".avi"))
            = Some (map (fun f => snd (annotate Scenario.classes
                                         Scenario.unknown_on_second f))
                        (frames Scenario.short))) as Heq.
    { apply H; vm_compute; tauto. }
    vm_compute in Heq. discriminate Heq.
Qed.

(** ** The further theorems on the scenarios *)

Lemma X2_witness :
  exists out_v,
    files Scenario.after_clip !! "out/clip_processed.mp4" = Some (Playable out_v) /\
    fps out_v = (10 # 1)%Q /\
    frame_width out_v = (640 # 1)%Q /\
    frame_height out_v = (480 # 1)%Q /\
    frame_count out_v = inject_Z (Z.of_nat (length (frames out_v))).
Proof.
  apply (X2_output_video_metadata Scenario.classes "out" Scenario.two_on_second
           "in/clip.mp4" "clip.mp4" Scenario.world Scenario.after_clip (Ok tt)
           Scenario.clip).
  - vm_compute. reflexivity.
  - vm_compute. reflexivity.
Defined.

Lemma X3_witness :
  stdout Scenario.after_clip =
  [ "Frames processed 0/3"; "Frames processed 1/3"; "Frames processed 2/3";
    "Сохранён обработанный файл: out/clip_processed.mp4" ].
Proof.
  rewrite (X3_progress_lines_of_a_completed_run Scenario.classes "out"
             Scenario.two_on_second "in/clip.mp4" "clip.mp4"
             Scenario.world Scenario.after_clip Scenario.clip).
  - vm_compute. reflexivity.
  - vm_compute. reflexivity.
  - vm_compute. reflexivity.
Defined.

Lemma X4_witness :
  exists w',
    process_video Scenario.classes "out" "in/empty.mp4" "empty.mp4"
                  Scenario.two_on_second Scenario2.world = (Ok tt, w') /\
    frames_of w' "out/empty_processed.mp4" = Some [] /\
    stdout w' = ["Сохранён обработанный файл: out/empty_processed.mp4"].
Proof.
  destruct (X4_video_without_frames Scenario.classes "out" Scenario.two_on_second
              "in/empty.mp4" "empty.mp4" Scenario2.world Scenario2.empty_video)
    as (w' & Hrun & Hf & Hout & _).
  - vm_compute. reflexivity.
  - reflexivity.
  - exists w'. split; [exact Hrun|]. split; [exact Hf | exact Hout].
Defined.

Lemma X5_witness :
  exists w',
    process_video Scenario.classes "out" "in/clip.mp4" "clip.mp4"
                  Scenario.unknown_on_second Scenario.world
    = (Raise (KeyError 7), w') /\
    frames_of w' "out/clip_processed.mp4" = Some [Scenario.blank 0].
Proof.
  apply (X5_first_unmapped_class_id_is_raised Scenario.classes "out"
           Scenario.unknown_on_second "in/clip.mp4" "clip.mp4" Scenario.world
           Scenario.clip 1 0 (Scenario.blank 1)
           ((1 # 1, 2 # 1, 3 # 1, 4 # 1)%Q, (1 # 2)%Q, (7 # 1)%Q)).
  - vm_compute. reflexivity.
  - reflexivity.
  - apply loop_outcome_ok. vm_compute. reflexivity.
  - reflexivity.
  - constructor.
  - vm_compute. reflexivity.
Defined.

Lemma X6_witness :
  exists c o written,
    captures Scenario.after_unknown = [c] /\ c_isOpened c = true /\
    writers Scenario.after_unknown = [o] /\ o_isOpened o = true /\
    frames_of Scenario.after_unknown "out/clip_processed.mp4" = Some written /\
    (length written < 3)%nat.
Proof.
  destruct (X6_no_cleanup_after_an_exception Scenario.classes "out"
              Scenario.unknown_on_second "in/clip.mp4" "clip.mp4"
              Scenario.world Scenario.after_unknown (KeyError 7))
    as (c & o & v & written & Hv & Hc & Hco & Ho & Hoo & _ & Hf & Hlt & _).
  - vm_compute. reflexivity.
  - exists c, o, written. split; [exact Hc|]. split; [exact Hco|].
    split; [exact Ho|]. split; [exact Hoo|]. split; [exact Hf|].
    vm_compute in Hv. injection Hv as <-. exact Hlt.
Defined.

Lemma X7_witness :
  exists written,
    frames_of Scenario.after_clip "out/clip_processed.mp4" = Some written /\
    forall i g,
      written !! i = Some g ->
      exists f,
        frames Scenario.clip !! i = Some f /\
        draw_detections Scenario.classes (Scenario.two_on_second f) f = (Ok tt, g) /\
        Forall (mapped Scenario.classes) (detections (Scenario.two_on_second f)).
Proof.
  apply (X7_written_frames_are_fully_annotated Scenario.classes "out"
           Scenario.two_on_second "in/clip.mp4" "clip.mp4"
           Scenario.world Scenario.after_clip (Ok tt) Scenario.clip).
  - vm_compute. reflexivity.
  - vm_compute. reflexivity.
Defined.

Lemma X8_witness :
  drawn (snd (draw_detections Scenario.classes
                (Scenario.two_on_second (Scenario.blank 1)) (Scenario.blank 1)))
  = [ Rectangle (10, 3) (100, 200) (0, 255, 0) 2;
      PutText "person 0.91" (10, 0) FONT_HERSHEY_SIMPLEX (1 # 2) (0, 255, 255) 2;
      Rectangle (-2, 50) (700, 500) (0, 255, 0) 2;
      PutText "car 0.42" (-2, 40) FONT_HERSHEY_SIMPLEX (1 # 2) (0, 255, 255) 2 ].
Proof.
  rewrite (X8_drawing_order Scenario.classes
             (Scenario.two_on_second (Scenario.blank 1)) (Scenario.blank 1)).
  - vm_compute. reflexivity.
  - apply draw_outcome_ok. vm_compute. reflexivity.
Defined.

Lemma X9_witness :
  length (drawn (snd (draw_detections Scenario.classes Scenario2.uneven
                        (Scenario.blank 0)))) = 2%nat.
Proof.
  destruct (X9_detections_are_zipped Scenario.classes Scenario2.uneven
              (Scenario.blank 0)) as [_ Heq].
  apply Heq. vm_compute. reflexivity.
Defined.

Lemma X10_witness :
  files Scenario.after_unknown !! "in/clip.mp4" = Some (Playable Scenario.clip) /\
  files Scenario.after_unknown !! "in/notes.txt" = Some Unplayable.
Proof.
  destruct (X10_process_video_footprint Scenario.classes "out"
              Scenario.unknown_on_second "in/clip.mp4" "clip.mp4"
              Scenario.world Scenario.after_unknown (Raise (KeyError 7)))
    as (Hfiles & _).
  - vm_compute. reflexivity.
  - split.
    + rewrite Hfiles; [vm_compute; reflexivity|].
      intros Heq. vm_compute in Heq. discriminate Heq.
    + rewrite Hfiles; [vm_compute; reflexivity|].
      intros Heq. vm_compute in Heq. discriminate Heq.
Defined.

Lemma X11_witness :
  files Scenario.after_batch !! "in/clip.mp4" = Some (Playable Scenario.clip).
Proof.
  rewrite (X11_main_writes_output_paths_only Scenario.classes "in" "out"
             Scenario.listing Scenario.two_on_second
             Scenario.world Scenario.after_batch (Ok tt) "in/clip.mp4").
  - vm_compute. reflexivity.
  - vm_compute. reflexivity.
  - intros f [<-|[<-|[<-|[]]]] _ Heq; vm_compute in Heq; discriminate Heq.
Defined.

Lemma X12_witness :
  exists lines,
    Forall (fun line => line <> "Обработка завершена.") lines /\
    stdout Scenario.after_batch = (lines ++ ["Обработка завершена."])%list.
Proof.
  apply (X12_completion_message Scenario.classes "in" "out" Scenario.listing
           Scenario.two_on_second Scenario.world Scenario.after_batch (Ok tt)).
  vm_compute. reflexivity.
Defined.

Lemma X14_witness :
  files Scenario2.after_second_run = files Scenario.after_clip.
Proof.
  destruct (X14_second_run_changes_no_file Scenario.classes "out"
              Scenario.two_on_second "in/clip.mp4" "clip.mp4"
              Scenario.world Scenario.after_clip Scenario2.after_second_run
              (Ok tt) (Ok tt)) as [_ Hfiles].
  - intros Heq. vm_compute in Heq. discriminate Heq.
  - vm_compute. reflexivity.
  - vm_compute. reflexivity.
  - exact Hfiles.
Defined.

Lemma X15_witness :
  output_video_path "in" "clip.mp4" <> OsPath.join "in" "clip.mp4".
Proof.
  apply (X15_output_is_not_the_input "in" "in" "clip.mp4"). reflexivity.
Defined.

Lemma X16_witness :
  is_video "clip_processed.mp4" = true /\
  output_video_path "out" "clip_processed.mp4" = "out/clip_processed_processed.mp4".
Proof.
  apply (X16_outputs_are_videos_again "out" "clip.mp4"). reflexivity.
Defined.

Lemma X17_witness :
  Py.int (-7 # 2) <= 0 /\ ((-7 # 2) <= inject_Z (Py.int (-7 # 2)))%Q /\
  (inject_Z (Py.int (-7 # 2) - 1) < (-7 # 2))%Q.
Proof.
  destruct (X17_int_truncates_toward_zero (-7 # 2)) as [_ Hneg].
  apply Hneg. vm_compute. discriminate.
Defined.

Lemma X19_witness :
  main Scenario.classes "in" "out" ["notes.txt"; "readme"] Scenario.two_on_second
       Scenario.world
  = (Ok tt, mkWorld (files Scenario.world) ["Обработка завершена."] [] []).
Proof.
  apply (X19_listing_without_videos Scenario.classes "in" "out").
  intros f [<-|[<-|[]]]; reflexivity.
Defined.
